(** * Pair sampling and data preparation of learning_visual_embeddings

    A shallow embedding of [capstone_project/preprocessing.py] and of the
    configuration constants of [main.py], followed by the properties of
    the pair sampler, of the cache and of the train/val/test split.

    Conventions.
    - Python integers are [Z]; array dimensions and list positions are [nat].
    - A NumPy array is its shape together with its elements in row-major
      order; element types (dtypes) are not tracked, except where NumPy's
      promotion to float64 changes the control flow ([np_num]).
    - A Python exception is the [Raise] branch of [result]; code that
      reads or writes the file system or the global random generator
      passes a [world] explicitly. Assertions are enabled.
    - [capstone_project.utils] is not among the sources: [imshow],
      [save_object] and [load_object] are modelled from the spec. *)

From Stdlib Require Import Ascii PrimFloat SpecFloat FloatOps.
From Equations Require Import Equations.
From stdpp Require Import gmap strings list.

Open Scope Z_scope.

(** ** Exceptions *)

Inductive exn :=
  | AssertionError
  | KeyError
  | IndexError
  | ValueError
  | TypeError
  | AxisError
  | FileNotFoundError
  | ZeroDivisionError
  | OverflowError.

Inductive result (A : Type) :=
  | Ok (a : A)
  | Raise (e : exn).
Arguments Ok {A} a.
Arguments Raise {A} e.

#[global] Instance exn_eq_dec : EqDecision exn.
Proof. solve_decision. Defined.

#[global] Instance result_ret : MRet result := @Ok.
#[global] Instance result_bind : MBind result := λ A B f m,
  match m with
  | Ok a => f a
  | Raise e => Raise e
  end.

#[global] Instance result_fmap : FMap result := λ A B f m,
  match m with
  | Ok a => Ok (f a)
  | Raise e => Raise e
  end.

(** [for x in l: body], threading the loop-carried variables [s]; an
    exception in the body leaves the loop. *)
Fixpoint for_each {A S : Type} (l : list A) (body : S → A → result S) (s : S)
  : result S :=
  match l with
  | [] => Ok s
  | x :: l' => s' ← body s x; for_each l' body s'
  end.

(** Python's [range(n)] for an integer [n]. *)
Definition py_range (n : Z) : list Z := seqZ 0 n.

(** Python's [range(lo, hi)]. *)
Definition py_range2 (lo hi : Z) : list Z := seqZ lo (hi - lo).

(** ** NumPy arrays *)

Record ndarray := NdArray { shape : list nat; flat : list Z }.

#[global] Instance ndarray_eq_dec : EqDecision ndarray.
Proof. solve_decision. Defined.

Definition shape_size (s : list nat) : nat := foldr Nat.mul 1%nat s.

(** [a.size] *)
Definition nd_size (a : ndarray) : nat := shape_size (shape a).

(** The [k]-th block of [c] consecutive elements. *)
Definition chunk (c : nat) (l : list Z) (k : nat) : list Z :=
  take c (drop (k * c) l).

(** [np.array([])] *)
Definition np_empty : ndarray := NdArray [0%nat] [].

(** [a.swapaxes(0, 1)] *)
Definition swapaxes01 (a : ndarray) : result ndarray :=
  match shape a with
  | n0 :: n1 :: s =>
      let c := shape_size s in
      Ok (NdArray (n1 :: n0 :: s)
            (mjoin (j ← seq 0 n1; (λ i, chunk c (flat a) (i * n1 + j)%nat) <$> seq 0 n0)))
  | _ => Raise AxisError
  end.

(** [a[i]] for a position [i] along the first axis. *)
Definition nd_row (a : ndarray) (i : nat) : ndarray :=
  NdArray (tail (shape a)) (chunk (shape_size (tail (shape a))) (flat a) i).

(** The items of [for row in a]. *)
Definition nd_rows (a : ndarray) : result (list ndarray) :=
  match shape a with
  | [] => Raise TypeError
  | n :: _ => Ok (nd_row a <$> seq 0 n)
  end.

(** An index into an axis of length [n], negative indices counting from
    the end. *)
Definition norm_index (n : nat) (i : Z) : result nat :=
  if decide (0 ≤ i < Z.of_nat n) then Ok (Z.to_nat i)
  else if decide (- Z.of_nat n ≤ i < 0) then Ok (Z.to_nat (i + Z.of_nat n))
  else Raise IndexError.

(** [a[idxs]] for a list of integers [idxs]: the selected items of the
    first axis, in the order of [idxs]. *)
Definition nd_take (a : ndarray) (idxs : list Z) : result ndarray :=
  match shape a with
  | [] => Raise IndexError
  | n :: s =>
      ks ← mapM (norm_index n) idxs;
      Ok (NdArray (length idxs :: s) (mjoin (chunk (shape_size s) (flat a) <$> ks)))
  end.

(** [np.array(video_pairs)] for a list of two-element lists of arrays. *)
Definition np_array_pairs (l : list (ndarray * ndarray)) : result ndarray :=
  match l with
  | [] => Ok np_empty
  | (a, _) :: _ =>
      if forallb (λ p, bool_decide (shape p.1 = shape a) && bool_decide (shape p.2 = shape a)) l
      then Ok (NdArray (length l :: 2%nat :: shape a) (mjoin ((λ p, flat p.1 ++ flat p.2) <$> l)))
      else Raise ValueError
  end.

(** [np.array(y)] for a list of integers. *)
Definition np_array_ints (l : list Z) : ndarray := NdArray [length l] l.

(** [np.atleast_2d] *)
Definition atleast_2d (a : ndarray) : ndarray :=
  match shape a with
  | [] => NdArray [1%nat; 1%nat] (flat a)
  | [n] => NdArray [1%nat; n] (flat a)
  | _ => a
  end.

(** [np.vstack((a, b))] *)
Definition np_vstack (a b : ndarray) : result ndarray :=
  let a2 := atleast_2d a in
  let b2 := atleast_2d b in
  match shape a2, shape b2 with
  | n :: s, m :: t =>
      if decide (s = t) then Ok (NdArray ((n + m)%nat :: s) (flat a ++ flat b))
      else Raise ValueError
  | _, _ => Raise ValueError
  end.

(** [np.append(a, b)]: both arguments are flattened. *)
Definition np_append (a b : ndarray) : ndarray :=
  NdArray [(nd_size a + nd_size b)%nat] (flat a ++ flat b).

(** A NumPy scalar holding an integral value: [int64], or [float64] when
    an empty list took part in building the array it was read from. The
    model of the float case is exact for values below 2^53. *)
Inductive np_num :=
  | NpInt (z : Z)
  | NpFloat (z : Z).

Definition np_val (n : np_num) : Z :=
  match n with
  | NpInt z => z
  | NpFloat z => z
  end.

(** [n + 1] *)
Definition np_succ (n : np_num) : np_num :=
  match n with
  | NpInt z => NpInt (z + 1)
  | NpFloat z => NpFloat (z + 1)
  end.

(** [range(n)] for a NumPy scalar: a float is refused. *)
Definition np_range (n : np_num) : result (list Z) :=
  match n with
  | NpInt z => Ok (py_range z)
  | NpFloat _ => Raise TypeError
  end.

(** [d[k]] for a dictionary [d]. *)
Definition dict_get `{Countable K} {V : Type} (d : gmap K V) (k : K) : result V :=
  match d !! k with
  | Some v => Ok v
  | None => Raise KeyError
  end.

(** [l[i]] for a list [l] and a position [i]. *)
Definition list_get {A : Type} (l : list A) (i : nat) : result A :=
  match l !! i with
  | Some x => Ok x
  | None => Raise IndexError
  end.

(** ** The bucket table and the candidate table *)

Definition get_time_buckets_dict (time_buckets : list (list Z)) : gmap Z Z :=
  (foldl (λ '(bucket_idx, buckets_dict) bucket,
            (bucket_idx + 1,
             foldl (λ d time, <[time := bucket_idx]> d) buckets_dict bucket))
         (0, ∅) time_buckets).2.

(** [differences_dict.setdefault(diff, []).append(p)] *)
Definition setdefault_append (diff : Z) (p : Z * Z) (d : gmap Z (list (Z * Z)))
  : gmap Z (list (Z * Z)) :=
  <[diff := default [] (d !! diff) ++ [p]]> d.

(** The loop [while end_frame <= num_total_frames-1] of
    [get_frame_differences_dict]. *)
Equations while_end_frame (num_total_frames diff start_frame end_frame : Z)
  (differences_dict : gmap Z (list (Z * Z))) : gmap Z (list (Z * Z))
  by wf (Z.to_nat (num_total_frames - end_frame)) lt :=
while_end_frame ntf diff s e d with decide (e ≤ ntf - 1) := {
  | left _ =>
      while_end_frame ntf diff (s + 1) (e + 1) (setdefault_append diff (s, e) d)
  | right _ => d }.
Next Obligation. lia. Qed.

Definition get_frame_differences_dict
  (num_total_frames : Z) (max_frame_diff : np_num) (num_frames_in_stack : Z)
  : result (gmap Z (list (Z * Z))) :=
  differences ← np_range (np_succ max_frame_diff);
  Ok (foldl (λ differences_dict diff,
               let start_frame := num_frames_in_stack - 1 in
               let end_frame := start_frame + diff in
               while_end_frame num_total_frames diff start_frame end_frame
                 differences_dict)
            ∅ differences).

(** ** The global random generator

    [np.random] is taken as an interface: [np_seed] is the state that
    [np.random.seed] installs, [np_choice n k] draws [k] positions below
    [n] (for [0 < n]) and advances the state. *)
Class NumpyRandom := {
  rng_state : Type;
  np_seed : Z → rng_state;
  np_choice : nat → nat → rng_state → list nat * rng_state;
  np_choice_length : ∀ n k g, length (np_choice n k g).1 = k;
  np_choice_bound : ∀ n k g, (0 < n)%nat → Forall (λ i, (i < n)%nat) (np_choice n k g).1
}.

(** A linear congruential generator, used to run the model on concrete
    inputs. *)
Definition lcg_next (g : Z) : Z := (1103515245 * g + 12345) `mod` 2147483648.

Fixpoint lcg_choice (n k : nat) (g : Z) : list nat * Z :=
  match k with
  | O => ([], g)
  | S k' =>
      let g' := lcg_next g in
      let r := lcg_choice n k' g' in
      (Z.to_nat ((g' `div` 65536) `mod` Z.of_nat n) :: r.1, r.2)
  end.

Lemma lcg_choice_length (n k : nat) (g : Z) : length (lcg_choice n k g).1 = k.
Proof.
  revert g. induction k as [|k IH]; intros g; simpl; [done|]. by rewrite IH.
Qed.

Lemma lcg_choice_bound (n k : nat) (g : Z) :
  (0 < n)%nat → Forall (λ i, (i < n)%nat) (lcg_choice n k g).1.
Proof.
  intros Hn. revert g. induction k as [|k IH]; intros g; simpl.
  - constructor.
  - constructor; [|apply IH].
    pose proof (Z.mod_pos_bound (lcg_next g `div` 65536) (Z.of_nat n)). lia.
Qed.

#[global] Instance lcg_random : NumpyRandom := {|
  rng_state := Z;
  np_seed := λ s, s `mod` 2147483648;
  np_choice := lcg_choice;
  np_choice_length := lcg_choice_length;
  np_choice_bound := lcg_choice_bound
|}.

(** ** File names *)

(** [s.split(sep)] for a one-character separator. *)
Fixpoint py_split (sep : ascii) (s : string) : list string :=
  match s with
  | EmptyString => [EmptyString]
  | String c s' =>
      if decide (c = sep) then EmptyString :: py_split sep s'
      else match py_split sep s' with
           | h :: t => String c h :: t
           | [] => [String c EmptyString]
           end
  end.

(** [sep.join(l)] *)
Fixpoint py_join (sep : string) (l : list string) : string :=
  match l with
  | [] => EmptyString
  | x :: l' =>
      match l' with
      | [] => x
      | _ :: _ => x +:+ sep +:+ py_join sep l'
      end
  end.

Definition startswith_slash (s : string) : bool :=
  match s with
  | String c _ => bool_decide (c = "/"%char)
  | EmptyString => false
  end.

Fixpoint endswith_slash (s : string) : bool :=
  match s with
  | EmptyString => false
  | String c s' =>
      match s' with
      | EmptyString => bool_decide (c = "/"%char)
      | String _ _ => endswith_slash s'
      end
  end.

(** [os.path.join(a, *p)] of [posixpath]. *)
Definition os_path_join (a : string) (p : list string) : string :=
  foldl (λ path b,
           if startswith_slash b then b
           else if bool_decide (path = EmptyString) || endswith_slash path
                then path +:+ b
                else path +:+ "/" +:+ b)
        a p.

(** ['.'.join(filename.split('.')[:-1])] *)
Definition strip_extension (filename : string) : string :=
  py_join "." (removelast (py_split "."%char filename)).

(** The two cache paths of [get_paired_data]. *)
Definition cache_paths (project_dir data_dir filename : string) : string * string :=
  let filename := strip_extension filename in
  (os_path_join project_dir [data_dir; filename +:+ "_X.pkl"],
   os_path_join project_dir [data_dir; filename +:+ "_y.pkl"]).

(** ** The sampler and the cache *)

(** [range(last - stack + 1, last + 1)]: the frame indices of one stack. *)
Definition stack_frames (last_frame num_frames_in_stack : Z) : list Z :=
  py_range2 (last_frame - num_frames_in_stack + 1) (last_frame + 1).

(** [np.hstack([bucket for bucket in time_buckets]).max()] *)
Definition hstack_max (time_buckets : list (list Z)) : result np_num :=
  match mjoin time_buckets with
  | [] => Raise ValueError
  | t :: ts =>
      let m := foldl Z.max t ts in
      Ok (if existsb (λ bucket, bool_decide (bucket = [])) time_buckets
          then NpFloat m else NpInt m)
  end.

(** [assert b] *)
Definition py_assert (b : bool) : result () :=
  if b then Ok () else Raise AssertionError.

Section Sampler.
Context `{NumpyRandom}.

(** What a call can read and change: the files (a [.npy] file and a
    pickle both hold an array) and the state of [np.random]. *)
Record world := World { files : gmap string ndarray; rng : rng_state }.

(** Computations that read and change the [world] and may raise; the
    [world] at the time of the exception is kept. *)
Definition M (A : Type) : Type := world → result A * world.

#[global] Instance M_ret : MRet M := λ A a w, (Ok a, w).
#[global] Instance M_bind : MBind M := λ A B f m w,
  match m w with
  | (Ok a, w') => f a w'
  | (Raise e, w') => (Raise e, w')
  end.

Definition lift {A : Type} (r : result A) : M A := λ w, (r, w).

(** [for x in l: body] in [M]. *)
Fixpoint for_eachM {A S : Type} (l : list A) (body : S → A → M S) (s : S) : M S :=
  match l with
  | [] => mret s
  | x :: l' => s' ← body s x; for_eachM l' body s'
  end.

(** [np.load(path)] *)
Definition np_load (path : string) : M ndarray := λ w,
  match files w !! path with
  | Some a => (Ok a, w)
  | None => (Raise FileNotFoundError, w)
  end.

(** [os.path.exists(path)] *)
Definition os_path_exists (path : string) : M bool := λ w,
  (Ok (bool_decide (is_Some (files w !! path))), w).

(** Modelled from the spec: [capstone_project.utils.load_object] is not
    among the sources; the spec has the cached arrays read back from the
    pickle at the given path. *)
Definition load_object (path : string) : M ndarray := λ w,
  match files w !! path with
  | Some a => (Ok a, w)
  | None => (Raise FileNotFoundError, w)
  end.

(** Modelled from the spec: [capstone_project.utils.save_object] is not
    among the sources; the spec has the generated arrays persisted to
    disk at the given path. *)
Definition save_object (obj : ndarray) (path : string) : M () := λ w,
  (Ok (), World (<[path := obj]> (files w)) (rng w)).

(** Modelled from the spec: [capstone_project.utils.imshow] is not among
    the sources; the spec counts plotting as incidental glue that writes
    an image, so it leaves the arrays and the cache files as they are. *)
Definition imshow (data : ndarray) (mean std : Z) (project_dir plots_dir : string)
  : M () := mret ().

(** [np.random.seed(s)] *)
Definition random_seed (s : Z) : M () := λ w, (Ok (), World (files w) (np_seed s)).

(** The world after [np.random.seed(1337)]. *)
Definition reseeded (w : world) : world := World (files w) (np_seed 1337).

(** [np.random.choice(n, size=size)] *)
Definition random_choice (n : nat) (size : Z) : M (list nat) := λ w,
  if decide (n = 0%nat) then (Raise ValueError, w)
  else if decide (size < 0) then (Raise ValueError, w)
  else let r := np_choice n (Z.to_nat size) (rng w) in
       (Ok r.1, World (files w) r.2).

Definition load_data (project_dir data_dir filename : string) : M ndarray :=
  let filename := os_path_join project_dir [data_dir; filename] in
  data ← np_load filename;
  lift (swapaxes01 data).

(** The body of the inner loop of [get_samples_at_difference]: the two
    frame stacks and the label of one sample. *)
Definition make_sample (candidates : list (Z * Z)) (difference num_frames_in_stack : Z)
  (time_buckets_dict : gmap Z Z) (row : ndarray) (idx_pair : nat)
  : result ((ndarray * ndarray) * Z) :=
  '(target1_last_frame, target2_last_frame) ← list_get candidates idx_pair;
  let target1_frames := stack_frames target1_last_frame num_frames_in_stack in
  let target2_frames := stack_frames target2_last_frame num_frames_in_stack in
  stack1 ← nd_take row target1_frames;
  stack2 ← nd_take row target2_frames;
  bucket ← dict_get time_buckets_dict difference;
  Ok ((stack1, stack2), bucket).

(** The two loops of [get_samples_at_difference], with the lists
    [video_pairs] and [y] as they stand before the conversion to arrays. *)
Definition collect_samples (rows : list ndarray) (idx_pairs : list nat)
  (candidates : list (Z * Z)) (difference num_frames_in_stack : Z)
  (time_buckets_dict : gmap Z Z)
  : result (list (ndarray * ndarray) * list Z) :=
  for_each rows (λ acc row,
    for_each idx_pairs (λ '(video_pairs, y) idx_pair,
      '(stacks, bucket) ← make_sample candidates difference num_frames_in_stack
                            time_buckets_dict row idx_pair;
      Ok (video_pairs ++ [stacks], y ++ [bucket])) acc) ([], []).

(** The two lines of [get_samples_at_difference] that reseed the
    generator and draw the candidate positions. *)
Definition draw_idx_pairs (candidates : list (Z * Z)) (num_pairs_per_example : Z)
  : M (list nat) :=
  _ ← random_seed 1337;
  random_choice (length candidates) num_pairs_per_example.

(** The rest of [get_samples_at_difference], once the candidate
    positions are drawn: the two loops and the conversion to arrays. *)
Definition build_samples (data : ndarray) (idx_pairs : list nat)
  (candidates : list (Z * Z)) (difference num_frames_in_stack : Z)
  (time_buckets_dict : gmap Z Z) : result (ndarray * ndarray) :=
  rows ← nd_rows data;
  '(video_pairs, y) ← collect_samples rows idx_pairs candidates difference
                        num_frames_in_stack time_buckets_dict;
  X ← np_array_pairs video_pairs;
  Ok (X, np_array_ints y).

Definition get_samples_at_difference (data : ndarray) (difference : Z)
  (differences_dict : gmap Z (list (Z * Z))) (num_pairs_per_example : Z)
  (num_frames_in_stack : Z) (time_buckets_dict : gmap Z Z)
  : M (ndarray * ndarray) :=
  candidates ← lift (dict_get differences_dict difference);
  idx_pairs ← draw_idx_pairs candidates num_pairs_per_example;
  lift (build_samples data idx_pairs candidates difference num_frames_in_stack
          time_buckets_dict).

(** The generation passes of [get_paired_data], from the two tables to
    the arrays [X] and [y] that are then saved. *)
Definition generate_pairs (data : ndarray) (time_buckets : list (list Z))
  (num_total_frames : Z) (max_frame_diff : np_num) (num_passes_for_generation : Z)
  (num_pairs_per_example : Z) (num_frames_in_stack : Z) : M (ndarray * ndarray) :=
  let time_buckets_dict := get_time_buckets_dict time_buckets in
  differences_dict ← lift (get_frame_differences_dict num_total_frames max_frame_diff
                             num_frames_in_stack);
  for_eachM (py_range num_passes_for_generation) (λ acc i,
    differences ← lift (np_range (np_succ max_frame_diff));
    for_eachM differences (λ '(X, y) difference,
      '(video_pairs, targets) ← get_samples_at_difference data difference
                                  differences_dict num_pairs_per_example
                                  num_frames_in_stack time_buckets_dict;
      X ← lift (if decide (nd_size X = 0%nat) then Ok video_pairs
                else np_vstack X video_pairs);
      mret (X, np_append y targets)) acc) (np_empty, np_empty).

Definition get_paired_data (project_dir data_dir plots_dir filename : string)
  (time_buckets : list (list Z)) (num_passes_for_generation : Z)
  (num_pairs_per_example : Z) (num_frames_in_stack : Z) (force : bool)
  : M (ndarray * ndarray) :=
  let mean := 0 in
  let std := 1 in
  data ← load_data project_dir data_dir filename;
  _ ← imshow data mean std project_dir plots_dir;
  num_total_frames ← lift (Z.of_nat <$> list_get (shape data) 1);
  max_frame_diff ← lift (hstack_max time_buckets);
  _ ← lift (py_assert
              (bool_decide (np_val max_frame_diff ≤ num_total_frames - num_frames_in_stack)));
  let '(X_path, y_path) := cache_paths project_dir data_dir filename in
  X_exists ← os_path_exists X_path;
  y_exists ← os_path_exists y_path;
  if negb force && X_exists && y_exists then
    X ← load_object X_path;
    y ← load_object y_path;
    mret (X, y)
  else
    '(X, y) ← generate_pairs data time_buckets num_total_frames max_frame_diff
                num_passes_for_generation num_pairs_per_example num_frames_in_stack;
    _ ← save_object X X_path;
    _ ← save_object y y_path;
    mret (X, y).

End Sampler.

(** ** The train/val/test split sizes *)

(** The conversion of a Python integer in a mixed [int]/[float]
    operation. *)
Definition float_of_int (z : Z) : result float :=
  let f := SF2Prim (binary_normalize prec emax z 0 false) in
  if PrimFloat.is_infinity f then Raise OverflowError else Ok f.

(** [int(np.floor(x))] *)
Definition int_floor (x : float) : result Z :=
  match Prim2SF x with
  | S754_zero _ => Ok 0
  | S754_finite s m e =>
      Ok (((if s then Z.neg m else Z.pos m) * 2 ^ Z.max e 0) `div` 2 ^ Z.max (- e) 0)
  | S754_infinity _ => Raise OverflowError
  | S754_nan => Raise ValueError
  end.

(** Python's [x / y] on floats. *)
Definition float_div (x y : float) : result float :=
  if PrimFloat.is_zero y then Raise ZeroDivisionError else Ok (PrimFloat.div x y).

(** The dataset adapter; [transforms] is always [None]. *)
Record MovingMNISTDataset := { dataset_X : ndarray; dataset_y : ndarray }.

(** [len(dataset)], that is [len(self.y)]. *)
Definition dataset_len (dataset : MovingMNISTDataset) : result Z :=
  match shape (dataset_y dataset) with
  | [] => Raise TypeError
  | n :: _ => Ok (Z.of_nat n)
  end.

(** [a[i]] for an integer [i]: the item of the first axis at [i], negative
    indices counting from the end. *)
Definition nd_item (a : ndarray) (i : Z) : result ndarray :=
  match shape a with
  | [] => Raise IndexError
  | n :: _ => k ← norm_index n i; Ok (nd_row a k)
  end.

(** [dataset[index]], that is [MovingMNISTDataset.__getitem__]. *)
Definition dataset_getitem (dataset : MovingMNISTDataset) (index : Z)
  : result (ndarray * ndarray * ndarray) :=
  item1 ← nd_item (dataset_X dataset) index;
  x1 ← nd_item item1 0;
  item2 ← nd_item (dataset_X dataset) index;
  x2 ← nd_item item2 1;
  y ← nd_item (dataset_y dataset) index;
  Ok (x1, x2, y).

(** The sizes [(num_train, num_val, num_test)] that [generate_dataloader]
    computes and hands to [random_split]. *)
Definition generate_dataloader_sizes (X y : ndarray) (test_size val_size : float)
  : result (Z * Z * Z) :=
  let dataset := {| dataset_X := X; dataset_y := y |} in
  len_dataset ← dataset_len dataset;
  n ← float_of_int len_dataset;
  num_test ← int_floor (PrimFloat.mul test_size n);
  let num_train_val := len_dataset - num_test in
  ntv ← float_of_int num_train_val;
  q ← float_div (PrimFloat.mul ntv val_size) (PrimFloat.sub 1%float test_size);
  num_val ← int_floor q;
  let num_train := num_train_val - num_val in
  Ok (num_train, num_val, num_test).

(** ** The constants of the entry script *)

Definition TIME_BUCKETS : list (list Z) :=
  [[0]; [1]; [2]; [3; 4]; py_range2 5 11; py_range2 11 20].

Definition NUM_ROWS : Z := 1.
Definition NUM_VIDEOS_PER_ROW : Z := 1.
Definition TEST_SIZE : float := 0x1.999999999999ap-3%float.
Definition VAL_SIZE : float := 0x1.999999999999ap-3%float.
Definition DATA_DIR : string := "data".
Definition PLOTS_DIR : string := "plots".

(** The call of [get_paired_data] in [main]: [num_frames_in_stack] is not
    passed and takes its default, 2. *)
Definition main_get_paired_data `{NumpyRandom} (PROJECT_DIR DATASET : string)
  : M (ndarray * ndarray) :=
  get_paired_data PROJECT_DIR DATA_DIR PLOTS_DIR DATASET TIME_BUCKETS NUM_ROWS
    NUM_VIDEOS_PER_ROW 2 false.

(** ** Example inputs

    A raw file of three frames of two videos with frames of one row and
    two columns, as [np.load] returns it (frames first), and worlds that
    hold it without and with the two cache files. *)

Definition example_raw : ndarray :=
  NdArray [3; 2; 1; 2]%nat [1; 2; 3; 4; 5; 6; 7; 8; 9; 10; 11; 12].

Definition example_data : ndarray :=
  NdArray [2; 3; 1; 2]%nat [1; 2; 5; 6; 9; 10; 3; 4; 7; 8; 11; 12].

Definition example_cached_X : ndarray :=
  NdArray [1; 2; 1; 1; 2]%nat [1; 2; 5; 6].

Definition example_cached_y : ndarray := NdArray [1]%nat [1].

Definition example_world : @world lcg_random :=
  World {[ "p/d/f.npy"%string := example_raw ]} 0.

Definition example_world_cached : @world lcg_random :=
  World {[ "p/d/f.npy"%string := example_raw;
           "p/d/f_X.pkl"%string := example_cached_X;
           "p/d/f_y.pkl"%string := example_cached_y ]} 0.

(** A second world, with another state of the generator. *)
Definition example_world_other : @world lcg_random :=
  World {[ "p/d/f.npy"%string := example_raw ]} 42.

(** The two tables for videos of three frames, stacks of one frame and
    the buckets [[0], [1]]. *)
Definition example_differences_dict : gmap Z (list (Z * Z)) :=
  {[ 0 := [(0, 0); (1, 1); (2, 2)]; 1 := [(0, 1); (1, 2)] ]}.

Definition example_time_buckets_dict : gmap Z Z := {[ 0 := 0; 1 := 1 ]}.

(** What the sampler returns on the example at difference 1, and what a
    fresh generation returns on it. *)
Definition example_samples_X : ndarray :=
  NdArray [2; 2; 1; 1; 2]%nat [5; 6; 9; 10; 7; 8; 11; 12].

Definition example_samples_y : ndarray := NdArray [2]%nat [1; 1].

Definition example_generated_X : ndarray :=
  NdArray [4; 2; 1; 1; 2]%nat [9; 10; 9; 10; 11; 12; 11; 12; 5; 6; 9; 10; 7; 8; 11; 12].

Definition example_generated_y : ndarray := NdArray [4]%nat [0; 0; 1; 1].

(** ** Specification-level descriptions used by the properties *)

(** The pairs that the loop of [get_frame_differences_dict] appends when
    it is entered with [start_frame] and [end_frame]. *)
Definition candidate_run (num_total_frames start_frame end_frame : Z) : list (Z * Z) :=
  (λ k, (start_frame + k, end_frame + k)) <$> seqZ 0 (num_total_frames - end_frame).

(** An array is well formed when it holds as many elements as its shape
    announces; every array that NumPy builds is. *)
Definition nd_wf (a : ndarray) : Prop := length (flat a) = nd_size a.

(** The position of the last bucket that holds [t], if any. *)
Fixpoint last_bucket (time_buckets : list (list Z)) (t : Z) : option nat :=
  match time_buckets with
  | [] => None
  | bucket :: time_buckets' =>
      match last_bucket time_buckets' t with
      | Some j => Some (S j)
      | None => if decide (t ∈ bucket) then Some 0%nat else None
      end
  end.

(** Whether the character [c] occurs in [s]. *)
Fixpoint contains (c : ascii) (s : string) : bool :=
  match s with
  | EmptyString => false
  | String a s' => bool_decide (a = c) || contains c s'
  end.

(** What one call of [get_samples_at_difference] returns, as a function
    of its arguments alone: the candidate positions are the ones drawn
    right after reseeding with 1337. *)
Definition sample_block `{NumpyRandom} (data : ndarray)
  (differences_dict : gmap Z (list (Z * Z))) (num_pairs_per_example : Z)
  (num_frames_in_stack : Z) (time_buckets_dict : gmap Z Z) (difference : Z)
  : result (ndarray * ndarray) :=
  match differences_dict !! difference with
  | None => Raise KeyError
  | Some candidates =>
      if decide (length candidates = 0%nat) then Raise ValueError
      else if decide (num_pairs_per_example < 0) then Raise ValueError
      else build_samples data
             (np_choice (length candidates) (Z.to_nat num_pairs_per_example)
                (np_seed 1337)).1
             candidates difference num_frames_in_stack time_buckets_dict
  end.

(** The two assignments that add a block of samples to [X] and [y]. *)
Definition accumulate (acc block : ndarray * ndarray) : result (ndarray * ndarray) :=
  X ← (if decide (nd_size acc.1 = 0%nat) then Ok block.1 else np_vstack acc.1 block.1);
  Ok (X, np_append acc.2 block.2).

(** The generation passes as a function of the data and the parameters
    alone. *)
Definition generate_pairs_pure `{NumpyRandom} (data : ndarray)
  (time_buckets : list (list Z)) (num_total_frames : Z) (max_frame_diff : np_num)
  (num_passes_for_generation num_pairs_per_example num_frames_in_stack : Z)
  : result (ndarray * ndarray) :=
  differences_dict ← get_frame_differences_dict num_total_frames max_frame_diff
                       num_frames_in_stack;
  for_each (py_range num_passes_for_generation) (λ acc i,
    differences ← np_range (np_succ max_frame_diff);
    for_each differences (λ acc difference,
      block ← sample_block data differences_dict num_pairs_per_example
                num_frames_in_stack (get_time_buckets_dict time_buckets) difference;
      accumulate acc block) acc) (np_empty, np_empty).

(** A result that is not an assertion failure. *)
Definition no_assert {A : Type} (r : result A) : Prop := r ≠ Raise AssertionError.

(** * Properties *)

(** ** Tactics *)

Ltac unfold_bind :=
  unfold mbind, result_bind, mret, result_ret in *.

Ltac unfold_M :=
  unfold mbind, M_bind, mret, M_ret, lift in *.

(** ** The split sizes *)

(** C6: whenever [generate_dataloader] computes its three split sizes
    for a dataset of [n] items, [num_train + num_val + num_test] is
    exactly [n], whatever the fractions [test_size] and [val_size] are. *)
Theorem split_sizes_sum (X y : ndarray) (n : Z) (test_size val_size : float)
  (num_train num_val num_test : Z) :
  dataset_len {| dataset_X := X; dataset_y := y |} = Ok n →
  generate_dataloader_sizes X y test_size val_size
    = Ok (num_train, num_val, num_test) →
  num_train + num_val + num_test = n.
Proof.
  unfold generate_dataloader_sizes. intros ->. unfold_bind.
  destruct (float_of_int n) as [f|]; [|done].
  destruct (int_floor (PrimFloat.mul test_size f)) as [nt|]; [|done].
  destruct (float_of_int (n - nt)) as [ntv|]; [|done].
  destruct (float_div _ _) as [q|]; [|done].
  destruct (int_floor q) as [nv|]; [|done].
  intros [= <- <- <-]. lia.
Qed.

Lemma split_sizes_sum_witness :
  generate_dataloader_sizes example_generated_X example_generated_y TEST_SIZE VAL_SIZE
  = Ok (3, 1, 0)
  ∧ 3 + 1 + 0 = 4.
Proof.
  split; [vm_compute; reflexivity|].
  apply (split_sizes_sum example_generated_X example_generated_y 4 TEST_SIZE VAL_SIZE);
    vm_compute; reflexivity.
Defined.

(** The split of a dataset of 200000 samples by the fractions of the
    entry script. *)
Example split_sizes_entry_script :
  generate_dataloader_sizes np_empty (NdArray [Z.to_nat 200000] []) TEST_SIZE VAL_SIZE
  = Ok (120000, 40000, 40000).
Proof. vm_compute. reflexivity. Qed.

(** ** The bucket table *)

Lemma bucket_fold_lookup (bucket : list Z) (v : Z) (d : gmap Z Z) (t : Z) :
  foldl (λ d time, <[time := v]> d) d bucket !! t
  = if decide (t ∈ bucket) then Some v else d !! t.
Proof.
  revert d. induction bucket as [|a bucket IH]; intros d; cbn [foldl].
  - rewrite decide_False; [done|]. by intros ?%elem_of_nil.
  - rewrite IH. destruct (decide (t ∈ bucket)) as [Hin|Hnin].
    + rewrite decide_True; [done|]. by right.
    + destruct (decide (a = t)) as [->|Hne].
      * rewrite lookup_insert_eq, decide_True; [done|]. by left.
      * rewrite lookup_insert_ne by done. rewrite decide_False; [done|].
        intros [?|?]%elem_of_cons; congruence.
Qed.

Lemma time_buckets_fold_lookup (time_buckets : list (list Z)) (idx0 : Z)
  (d0 : gmap Z Z) (t : Z) :
  (foldl (λ '(bucket_idx, buckets_dict) bucket,
            (bucket_idx + 1,
             foldl (λ d time, <[time := bucket_idx]> d) buckets_dict bucket))
         (idx0, d0) time_buckets).2 !! t
  = match last_bucket time_buckets t with
    | Some j => Some (idx0 + Z.of_nat j)
    | None => d0 !! t
    end.
Proof.
  revert idx0 d0. induction time_buckets as [|bucket tb IH]; intros idx0 d0; [done|].
  cbn [foldl last_bucket]. rewrite IH, bucket_fold_lookup.
  destruct (last_bucket tb t) as [j|]; [f_equal; lia|].
  case_decide; [f_equal; lia|done].
Qed.

(** The table maps a time difference to the position of the last bucket
    that holds it, and is undefined on the differences of no bucket. *)
Lemma get_time_buckets_dict_lookup (time_buckets : list (list Z)) (t : Z) :
  get_time_buckets_dict time_buckets !! t = Z.of_nat <$> last_bucket time_buckets t.
Proof.
  unfold get_time_buckets_dict. rewrite time_buckets_fold_lookup.
  by destruct (last_bucket time_buckets t).
Qed.

Lemma last_bucket_is_Some (time_buckets : list (list Z)) (t : Z) :
  is_Some (last_bucket time_buckets t) ↔ ∃ bucket, bucket ∈ time_buckets ∧ t ∈ bucket.
Proof.
  induction time_buckets as [|bucket tb IH]; cbn [last_bucket].
  - split; [by intros [? ?]|]. by intros (b & ?%elem_of_nil & _).
  - destruct (last_bucket tb t) as [j|].
    + split; [|by eexists]. intros _.
      destruct (proj1 IH) as (b & Hb & Ht); [by eexists|].
      exists b. split; [by right|done].
    + case_decide as Hin.
      * split; [|by eexists]. intros _. exists bucket. split; [by left|done].
      * split; [by intros [? ?]|]. intros (b & [->|Hb]%elem_of_cons & Ht); [done|].
        apply IH. by exists b.
Qed.

(** The position that [last_bucket] returns is the position of a bucket
    that holds [t], and no later bucket holds [t]. *)
Lemma last_bucket_Some (time_buckets : list (list Z)) (t : Z) (i : nat) :
  last_bucket time_buckets t = Some i →
  (∃ bucket, time_buckets !! i = Some bucket ∧ t ∈ bucket)
  ∧ ∀ j bucket, (i < j)%nat → time_buckets !! j = Some bucket → t ∉ bucket.
Proof.
  revert i. induction time_buckets as [|b tb IH]; intros i; cbn [last_bucket]; [done|].
  destruct (last_bucket tb t) as [k|] eqn:Hk.
  - intros [= <-]. destruct (IH k eq_refl) as [Hat Hafter]. split; [done|].
    intros [|j] bucket Hj Hlook; [lia|]. apply (Hafter j); [lia|done].
  - case_decide as Hin; [|done]. intros [= <-]. split; [by exists b|].
    intros [|j] bucket Hj Hlook; [lia|]. simpl in Hlook.
    intros Ht. assert (is_Some (last_bucket tb t)) as [? ?]; [|congruence].
    apply last_bucket_is_Some. exists bucket.
    split; [by eapply list_elem_of_lookup_2|done].
Qed.

(** The maximal difference is the greatest time of the buckets. *)
Lemma hstack_max_spec (time_buckets : list (list Z)) (m : np_num) :
  hstack_max time_buckets = Ok m →
  np_val m ∈ mjoin time_buckets ∧ ∀ t, t ∈ mjoin time_buckets → t ≤ np_val m.
Proof.
  unfold hstack_max. destruct (mjoin time_buckets) as [|t ts]; [done|].
  intros [= <-].
  assert (Hval : ∀ b : bool, np_val (if b then NpFloat (foldl Z.max t ts)
                                     else NpInt (foldl Z.max t ts))
                             = foldl Z.max t ts) by (by intros []).
  rewrite Hval. clear Hval. revert t.
  induction ts as [|a ts IH]; intros t; cbn [foldl].
  - split; [by left|]. by intros u ->%list_elem_of_singleton.
  - destruct (IH (Z.max t a)) as [Hin Hle]. split.
    + apply elem_of_cons in Hin as [Heq|Hin]; [|by right; right].
      rewrite Heq. destruct (Z.max_spec t a) as [[_ ->]|[_ ->]]; [right|]; by left.
    + intros u [->|[->|Hu]%elem_of_cons]%elem_of_cons.
      * etrans; [apply (Z.le_max_l _ a)|]. apply Hle. by left.
      * etrans; [apply (Z.le_max_r t)|]. apply Hle. by left.
      * apply Hle. by right.
Qed.

(** The maximal difference of the configured buckets. *)
Lemma TIME_BUCKETS_max : hstack_max TIME_BUCKETS = Ok (NpInt 19).
Proof. vm_compute. reflexivity. Qed.

(** C3: for the buckets configured in the entry script, the table built
    by [get_time_buckets_dict] is defined at every difference [d] between
    0 and the maximal difference, and its value there is the index of the
    one bucket that holds [d]. *)
Theorem time_buckets_partition (max_frame_diff : np_num) (d : Z) :
  hstack_max TIME_BUCKETS = Ok max_frame_diff →
  0 ≤ d ≤ np_val max_frame_diff →
  ∃ b : Z,
    get_time_buckets_dict TIME_BUCKETS !! d = Some b
    ∧ ∀ (i : nat) (bucket : list Z),
        TIME_BUCKETS !! i = Some bucket → (d ∈ bucket ↔ Z.of_nat i = b).
Proof.
  rewrite TIME_BUCKETS_max. intros [= <-]. simpl. intros Hd.
  assert (Hin : d ∈ seqZ 0 20) by (apply elem_of_seqZ; lia).
  vm_compute in Hin.
  repeat (apply elem_of_cons in Hin as [-> | Hin]);
    try (by apply elem_of_nil in Hin);
    (eexists; split; [vm_compute; reflexivity|]);
    intros i bucket Hi;
    do 6 (destruct i as [|i]; [injection Hi as <-; vm_compute py_range2;
                                rewrite ?elem_of_cons, elem_of_nil; lia|]);
    discriminate Hi.
Qed.

Lemma time_buckets_partition_witness :
  ∃ b : Z,
    get_time_buckets_dict TIME_BUCKETS !! 7 = Some b
    ∧ ∀ (i : nat) (bucket : list Z),
        TIME_BUCKETS !! i = Some bucket → (7 ∈ bucket ↔ Z.of_nat i = b).
Proof.
  apply (time_buckets_partition (NpInt 19) 7); [vm_compute; reflexivity | simpl; lia].
Defined.

(** ** The candidate table *)

Lemma candidate_run_cons ntf s e :
  e ≤ ntf - 1 →
  candidate_run ntf s e = (s, e) :: candidate_run ntf (s + 1) (e + 1).
Proof.
  intros He. unfold candidate_run.
  rewrite (seqZ_cons 0) by lia. cbn [fmap list_fmap].
  rewrite !Z.add_0_r. f_equal.
  replace (Z.pred (ntf - e)) with (ntf - (e + 1)) by lia.
  replace (Z.succ 0) with (1 + 0) by lia.
  rewrite <- (fmap_add_seqZ 1 0), <- list_fmap_compose.
  apply list_fmap_ext; intros _ k _; simpl. f_equal; lia.
Qed.

Lemma candidate_run_nil ntf s e : ¬ e ≤ ntf - 1 → candidate_run ntf s e = [].
Proof. intros He. unfold candidate_run. by rewrite seqZ_nil by lia. Qed.

Lemma elem_of_candidate_run ntf s e a b :
  (a, b) ∈ candidate_run ntf s e ↔ ∃ k, 0 ≤ k < ntf - e ∧ a = s + k ∧ b = e + k.
Proof.
  unfold candidate_run. rewrite list_elem_of_fmap. split.
  - intros (k & [= -> ->] & Hk%elem_of_seqZ). exists k. lia.
  - intros (k & Hk & -> & ->). exists k. split; [done|]. apply elem_of_seqZ. lia.
Qed.

(** The loop appends [candidate_run] to the entry of [diff], and creates
    no entry when its body is never entered. *)
Lemma while_end_frame_spec ntf diff s e (d : gmap Z (list (Z * Z))) :
  while_end_frame ntf diff s e d =
    if decide (e ≤ ntf - 1)
    then <[diff := default [] (d !! diff) ++ candidate_run ntf s e]> d
    else d.
Proof.
  funelim (while_end_frame ntf diff s e d); clear Heqcall.
  - rewrite decide_True by done. rewrite H.
    rewrite (candidate_run_cons ntf s e) by done.
    unfold setdefault_append. rewrite lookup_insert_eq; simpl.
    destruct (decide (e + 1 ≤ ntf - 1)) as [He|He].
    + rewrite insert_insert_eq. by rewrite <- app_assoc.
    + by rewrite (candidate_run_nil _ _ _ He).
  - by rewrite decide_False.
Qed.

Lemma differences_fold_lookup ntf stack (diffs : list Z) (d : Z) :
  NoDup diffs →
  foldl (λ differences_dict diff,
           while_end_frame ntf diff (stack - 1) (stack - 1 + diff) differences_dict)
        ∅ diffs !! d
  = if decide (d ∈ diffs ∧ stack - 1 + d ≤ ntf - 1)
    then Some (candidate_run ntf (stack - 1) (stack - 1 + d))
    else None.
Proof.
  induction diffs as [|x diffs IH] using rev_ind; intros Hnd.
  - cbn [foldl]. rewrite lookup_empty, decide_False; [done|]. intros [[]%elem_of_nil _].
  - apply NoDup_app in Hnd as (Hnd & Hx & _).
    rewrite foldl_app; cbn [foldl]. rewrite while_end_frame_spec.
    specialize (IH Hnd).
    assert (Hxn : x ∉ diffs) by (intros Hin; apply (Hx x Hin); left).
    destruct (decide (stack - 1 + x ≤ ntf - 1)) as [Hle|Hle].
    + destruct (decide (x = d)) as [->|Hne].
      * rewrite lookup_insert_eq, IH, decide_False by tauto. cbn [default app].
        rewrite decide_True; [done|]. split; [|done]. apply elem_of_app; right; left.
      * rewrite lookup_insert_ne, IH by done.
        apply decide_ext. rewrite elem_of_app, list_elem_of_singleton.
        split; [tauto|]. intros [[?| ->] ?]; done.
    + rewrite IH. apply decide_ext. rewrite elem_of_app, list_elem_of_singleton.
      split; [tauto|]. intros [[?| ->] ?]; done.
Qed.

(** The candidate table, entry by entry. *)
Lemma get_frame_differences_dict_lookup ntf mfd stack (d : Z) :
  ∃ differences_dict,
    get_frame_differences_dict ntf (NpInt mfd) stack = Ok differences_dict
    ∧ differences_dict !! d
      = if decide (0 ≤ d ≤ mfd ∧ stack - 1 + d ≤ ntf - 1)
        then Some (candidate_run ntf (stack - 1) (stack - 1 + d))
        else None.
Proof.
  eexists; split; [reflexivity|].
  rewrite differences_fold_lookup by apply NoDup_seqZ.
  apply decide_ext. unfold py_range. rewrite elem_of_seqZ. lia.
Qed.

(** C4: for at least one frame per video, a stack of at least one frame
    and a non-negative maximal difference, [get_frame_differences_dict]
    returns a table in which every pair [(start_frame, end_frame)] of
    every list lies within the frame indices: [0 ≤ start_frame] and
    [end_frame ≤ num_total_frames - 1]. *)
Theorem frame_differences_in_range
  (num_total_frames max_frame_diff num_frames_in_stack : Z) :
  1 ≤ num_total_frames → 1 ≤ num_frames_in_stack → 0 ≤ max_frame_diff →
  ∃ differences_dict,
    get_frame_differences_dict num_total_frames (NpInt max_frame_diff)
      num_frames_in_stack = Ok differences_dict
    ∧ ∀ (diff : Z) (pairs : list (Z * Z)) (start_frame end_frame : Z),
        differences_dict !! diff = Some pairs →
        (start_frame, end_frame) ∈ pairs →
        0 ≤ start_frame ∧ end_frame ≤ num_total_frames - 1.
Proof.
  intros Hntf Hstack Hmfd.
  destruct (get_frame_differences_dict_lookup num_total_frames max_frame_diff
              num_frames_in_stack 0) as (dd & Hdd & _).
  exists dd; split; [done|].
  intros diff pairs s e Hlook Hin.
  destruct (get_frame_differences_dict_lookup num_total_frames max_frame_diff
              num_frames_in_stack diff) as (dd' & Hdd' & Hspec).
  rewrite Hdd in Hdd'; injection Hdd' as <-.
  rewrite Hlook in Hspec. case_decide; [|done].
  injection Hspec as ->.
  apply elem_of_candidate_run in Hin as (k & Hk & -> & ->). lia.
Qed.

Lemma frame_differences_in_range_witness :
  ∃ differences_dict,
    get_frame_differences_dict 20 (NpInt 19) 1 = Ok differences_dict
    ∧ ∀ (diff : Z) (pairs : list (Z * Z)) (start_frame end_frame : Z),
        differences_dict !! diff = Some pairs →
        (start_frame, end_frame) ∈ pairs →
        0 ≤ start_frame ∧ end_frame ≤ 20 - 1.
Proof. apply (frame_differences_in_range 20 19 1); lia. Defined.

(** ** Arrays *)

Lemma length_chunk (c : nat) (l : list Z) (k : nat) :
  ((k + 1) * c ≤ length l)%nat → length (chunk c l k) = c.
Proof. intros Hk. unfold chunk. rewrite length_take, length_drop. lia. Qed.

Lemma chunk_mjoin (c : nat) (ls : list (list Z)) (k : nat) (x : list Z) :
  Forall (λ y, length y = c) ls → ls !! k = Some x → chunk c (mjoin ls) k = x.
Proof.
  intros Hall. revert k. induction Hall as [|y ls Hy Hall IH]; intros k Hk; [done|].
  unfold chunk in *. change (mjoin (y :: ls)) with (y ++ mjoin ls).
  destruct k as [|k]; simpl in Hk.
  - injection Hk as <-. rewrite Nat.mul_0_l, drop_0, take_app_length'; done.
  - replace (Datatypes.S k * c)%nat with (length y + k * c)%nat by lia.
    rewrite drop_app_add. by apply IH.
Qed.

Lemma length_mjoin_const (c : nat) (ls : list (list Z)) :
  Forall (λ y, length y = c) ls → length (mjoin ls) = (length ls * c)%nat.
Proof.
  induction 1 as [|y ls Hy Hall IH]; [done|].
  change (mjoin (y :: ls)) with (y ++ mjoin ls).
  rewrite length_app, IH, Hy. simpl. lia.
Qed.

Lemma shape_size_cons (n : nat) (s : list nat) :
  shape_size (n :: s) = (n * shape_size s)%nat.
Proof. done. Qed.

(** The items of a well-formed array are well formed, and there are as
    many as the first dimension says. *)
Lemma nd_rows_spec (a : ndarray) (n : nat) (s : list nat) :
  shape a = n :: s →
  nd_rows a = Ok (nd_row a <$> seq 0 n)
  ∧ length (nd_row a <$> seq 0 n) = n
  ∧ ∀ row, row ∈ nd_row a <$> seq 0 n → shape row = s ∧ (nd_wf a → nd_wf row).
Proof.
  intros Hs. unfold nd_rows. rewrite Hs. split; [done|].
  split; [by rewrite length_fmap, length_seq|].
  intros row (i & -> & Hi%elem_of_seq)%list_elem_of_fmap.
  unfold nd_row, nd_wf, nd_size. rewrite Hs. cbn [tail shape flat].
  split; [done|]. rewrite shape_size_cons. intros Hwf.
  apply length_chunk. rewrite Hwf. nia.
Qed.

Lemma mapM_norm_index (n : nat) (idxs : list Z) :
  Forall (λ i, 0 ≤ i < Z.of_nat n) idxs →
  mapM (norm_index n) idxs = Ok (Z.to_nat <$> idxs).
Proof.
  induction 1 as [|i idxs Hi Hall IH]; [done|].
  cbn [mapM]. rewrite IH. unfold norm_index. rewrite decide_True by done. done.
Qed.

(** What [mapM] returns, position by position. *)
Lemma mapM_result_lookup {A B : Type} (f : A → result B) (l : list A) (l' : list B) :
  mapM f l = Ok l' →
  length l' = length l ∧ ∀ k x, l !! k = Some x → ∃ y, f x = Ok y ∧ l' !! k = Some y.
Proof.
  revert l'. induction l as [|x l IH]; intros l' Hm.
  - injection Hm as <-. split; [done|]. intros k y Hk. done.
  - cbn [mapM] in Hm. unfold_bind.
    destruct (f x) as [y|] eqn:Hfx; [|done].
    destruct (mapM f l) as [ys|] eqn:Hml; [|done].
    injection Hm as <-. destruct (IH ys eq_refl) as [Hlen Hks].
    split; [simpl; by rewrite Hlen|].
    intros [|k] z Hk; simpl in Hk.
    + injection Hk as <-. by exists y.
    + by apply Hks.
Qed.

Lemma norm_index_lt (n : nat) (i : Z) (j : nat) :
  norm_index n i = Ok j → (j < n)%nat.
Proof. unfold norm_index. repeat case_decide; intros [= <-]; lia. Qed.

(** [a[idxs]] on in-range indices. *)
Lemma nd_take_ok (a : ndarray) (n : nat) (s : list nat) (idxs : list Z) :
  shape a = n :: s →
  Forall (λ i, 0 ≤ i < Z.of_nat n) idxs →
  ∃ st, nd_take a idxs = Ok st ∧ shape st = length idxs :: s.
Proof.
  intros Hs Hall. unfold nd_take. rewrite Hs, (mapM_norm_index n idxs Hall).
  eexists; split; [reflexivity|done].
Qed.

(** The result of [a[idxs]]: its shape, its well-formedness, and its
    items, which are the items of [a] at the listed indices. *)
Lemma nd_take_spec (a st : ndarray) (idxs : list Z) :
  nd_take a idxs = Ok st →
  ∃ n s, shape a = n :: s ∧ shape st = length idxs :: s
    ∧ (nd_wf a → nd_wf st)
    ∧ (nd_wf a → ∀ k i, idxs !! k = Some i →
         ∃ j, norm_index n i = Ok j ∧ nd_row st k = nd_row a j).
Proof.
  unfold nd_take. destruct (shape a) as [|n s] eqn:Hs; [done|].
  unfold_bind. destruct (mapM (norm_index n) idxs) as [ks|] eqn:Hks; [|done].
  intros [= <-]. exists n, s. split; [done|]. split; [done|].
  destruct (mapM_result_lookup _ _ _ Hks) as [Hlen Hlook].
  assert (Hfull : nd_wf a →
            Forall (λ y, length y = shape_size s) (chunk (shape_size s) (flat a) <$> ks)).
  { intros Hwf. apply Forall_fmap, Forall_forall. intros j Hj.
    apply list_elem_of_lookup in Hj as [k Hk].
    destruct (lookup_lt_is_Some_2 idxs k) as [i Hi];
      [rewrite <- Hlen; by eapply lookup_lt_Some|].
    destruct (Hlook k i Hi) as (j' & Hn & Hk'). rewrite Hk in Hk'; injection Hk' as <-.
    apply norm_index_lt in Hn. simpl. apply length_chunk.
    unfold nd_wf, nd_size in Hwf. rewrite Hwf, Hs, shape_size_cons. nia. }
  split.
  - intros Hwf. unfold nd_wf, nd_size. cbn [flat shape].
    rewrite (length_mjoin_const _ _ (Hfull Hwf)), length_fmap, Hlen, shape_size_cons. done.
  - intros Hwf k i Hi. destruct (Hlook k i Hi) as (j & Hn & Hk). exists j. split; [done|].
    unfold nd_row. cbn [flat shape tail]. rewrite Hs. cbn [tail]. f_equal.
    apply chunk_mjoin; [by apply Hfull|]. by rewrite list_lookup_fmap, Hk.
Qed.

(** The two stacks of an item of [np.array(video_pairs)]. *)
Lemma np_array_pairs_rows (l : list (ndarray * ndarray)) (sh : list nat) (k : nat)
  (p : ndarray * ndarray) :
  Forall (λ p, shape p.1 = sh ∧ shape p.2 = sh) l →
  Forall (λ p, nd_wf p.1 ∧ nd_wf p.2) l →
  l !! k = Some p →
  let X := NdArray (length l :: 2%nat :: sh) (mjoin ((λ p, flat p.1 ++ flat p.2) <$> l)) in
  nd_row (nd_row X k) 0 = p.1 ∧ nd_row (nd_row X k) 1 = p.2.
Proof.
  intros Hsh Hwf Hk X. destruct p as [a b].
  set (c := shape_size sh).
  assert (Hlen : Forall (λ p, length (flat p.1) = c ∧ length (flat p.2) = c) l).
  { rewrite Forall_forall in *. intros q Hq.
    destruct (Hsh _ Hq) as [Ha Hb], (Hwf _ Hq) as [Hwa Hwb].
    unfold nd_wf, nd_size in Hwa, Hwb. rewrite Ha in Hwa. rewrite Hb in Hwb. done. }
  assert (Hrow : nd_row X k = NdArray (2%nat :: sh) (flat a ++ flat b)).
  { unfold nd_row, X. cbn [shape flat tail]. f_equal.
    apply chunk_mjoin; [|by rewrite list_lookup_fmap, Hk].
    apply Forall_fmap. eapply Forall_impl; [exact Hlen|].
    intros q [Hqa Hqb]. simpl. rewrite length_app, Hqa, Hqb. fold c. lia. }
  rewrite Hrow. unfold nd_row, chunk. cbn [shape flat tail fst snd]. fold c.
  apply list_elem_of_lookup_2 in Hk. rewrite Forall_forall in Hsh, Hlen.
  destruct (Hsh _ Hk) as [Hsa Hsb], (Hlen _ Hk) as [Hla Hlb]. simpl in *.
  rewrite drop_0, Nat.add_0_r.
  rewrite take_app_length' by done.
  rewrite drop_app_length' by done. rewrite take_ge by lia.
  destruct a, b; simpl in *; subst; done.
Qed.

(** [np.array(video_pairs)]: the shape, and the two stacks of each item. *)
Lemma np_array_pairs_spec (l : list (ndarray * ndarray)) (X : ndarray) :
  np_array_pairs l = Ok X →
  (l = [] ∧ X = np_empty)
  ∨ ∃ sh, l ≠ [] ∧ shape X = length l :: 2%nat :: sh
      ∧ Forall (λ p, shape p.1 = sh ∧ shape p.2 = sh) l
      ∧ (Forall (λ p, nd_wf p.1 ∧ nd_wf p.2) l →
         ∀ k p, l !! k = Some p →
           nd_row (nd_row X k) 0 = p.1 ∧ nd_row (nd_row X k) 1 = p.2).
Proof.
  destruct l as [|[a0 b0] l]; [intros [= <-]; by left|].
  unfold np_array_pairs. set (l0 := (a0, b0) :: l).
  destruct (forallb _ l0) eqn:Hall; [|done]. intros [= <-]. right.
  exists (shape a0). split; [done|]. split; [done|].
  assert (Hsh : Forall (λ p, shape p.1 = shape a0 ∧ shape p.2 = shape a0) l0).
  { apply Forall_forall. intros p Hp%list_elem_of_In.
    rewrite forallb_forall in Hall. specialize (Hall p Hp).
    apply andb_prop in Hall as [H1%bool_decide_eq_true H2%bool_decide_eq_true]. done. }
  split; [done|]. intros Hwf k p Hk.
  apply (np_array_pairs_rows l0 (shape a0) k p Hsh Hwf Hk).
Qed.

(** ** The sampler *)

Lemma stack_frames_run (last_frame num_frames_in_stack : Z) :
  stack_frames last_frame num_frames_in_stack
  = seqZ (last_frame - num_frames_in_stack + 1) num_frames_in_stack.
Proof. unfold stack_frames, py_range2. f_equal. lia. Qed.

Lemma make_sample_spec candidates difference stack (tbd : gmap Z Z) row idx_pair
  (stacks : ndarray * ndarray) (bucket : Z) :
  make_sample candidates difference stack tbd row idx_pair = Ok (stacks, bucket)
  ↔ ∃ last1 last2,
      candidates !! idx_pair = Some (last1, last2)
      ∧ nd_take row (stack_frames last1 stack) = Ok stacks.1
      ∧ nd_take row (stack_frames last2 stack) = Ok stacks.2
      ∧ tbd !! difference = Some bucket.
Proof.
  unfold make_sample, list_get, dict_get. unfold_bind. split.
  - destruct (candidates !! idx_pair) as [[last1 last2]|]; [|done].
    destruct (nd_take row (stack_frames last1 stack)) as [s1|] eqn:H1; [|done].
    destruct (nd_take row (stack_frames last2 stack)) as [s2|] eqn:H2; [|done].
    destruct (tbd !! difference) as [b|]; [|done].
    intros [= <- <-]. by exists last1, last2.
  - intros (last1 & last2 & -> & -> & -> & ->). by destruct stacks.
Qed.

(** A loop that appends one item per round is a [mapM]. *)
Lemma for_each_append {A B C : Type} (g : A → result (B * C)) (l : list A)
  (v0 : list B) (y0 : list C) :
  for_each l (λ '(v, y) x, '(p, b) ← g x; Ok (v ++ [p], y ++ [b])) (v0, y0)
  = out ← mapM g l; Ok (v0 ++ out.*1, y0 ++ out.*2).
Proof.
  revert v0 y0. induction l as [|x l IH]; intros v0 y0.
  - cbn. by rewrite !app_nil_r.
  - cbn [for_each mapM]. unfold_bind.
    destruct (g x) as [[p b]|e]; [|done]. rewrite IH.
    destruct (mapM g l) as [out|e]; [|done].
    cbn [fmap list_fmap fst snd]. by rewrite <- !app_assoc.
Qed.

Lemma collect_samples_eq rows idx_pairs candidates difference stack (tbd : gmap Z Z) :
  collect_samples rows idx_pairs candidates difference stack tbd
  = outs ← mapM (λ row, mapM (make_sample candidates difference stack tbd row) idx_pairs)
             rows;
    Ok ((mjoin outs).*1, (mjoin outs).*2).
Proof.
  unfold collect_samples.
  enough (Hgen : ∀ v0 y0,
    for_each rows (λ acc row,
      for_each idx_pairs (λ '(video_pairs, y) idx_pair,
        '(stacks, bucket) ← make_sample candidates difference stack tbd row idx_pair;
        Ok (video_pairs ++ [stacks], y ++ [bucket])) acc) (v0, y0)
    = outs ← mapM (λ row, mapM (make_sample candidates difference stack tbd row) idx_pairs)
               rows;
      Ok (v0 ++ (mjoin outs).*1, y0 ++ (mjoin outs).*2)) by apply Hgen.
  induction rows as [|row rows IH]; intros v0 y0.
  - cbn. by rewrite !app_nil_r.
  - cbn [for_each mapM]. rewrite for_each_append. unfold_bind.
    destruct (mapM (make_sample candidates difference stack tbd row) idx_pairs)
      as [out|e]; [|done].
    rewrite IH. destruct (mapM _ rows) as [outs|e]; [|done].
    change (mjoin (out :: outs)) with (out ++ mjoin outs).
    by rewrite !fmap_app, !app_assoc.
Qed.

Lemma mapM_result_ok {A B : Type} (f : A → result B) (l : list A) :
  (∀ x, x ∈ l → ∃ y, f x = Ok y) → ∃ l', mapM f l = Ok l'.
Proof.
  induction l as [|x l IH]; intros Hf; [by exists []|].
  destruct (Hf x) as [y Hy]; [left|].
  destruct IH as [l' Hl']; [intros z Hz; apply Hf; by right|].
  exists (y :: l'). cbn [mapM]. by rewrite Hy, Hl'.
Qed.

Lemma mapM_result_Forall2 {A B : Type} (f : A → result B) (l : list A) (l' : list B) :
  mapM f l = Ok l' ↔ Forall2 (λ x y, f x = Ok y) l l'.
Proof.
  revert l'. induction l as [|x l IH]; intros l'.
  - split; [intros [= <-]; constructor|]. by intros ->%Forall2_nil_inv_l.
  - cbn [mapM]. unfold_bind. split.
    + destruct (f x) as [y|] eqn:Hfx; [|done].
      destruct (mapM f l) as [ys|] eqn:Hml; [|done].
      intros [= <-]. constructor; [done|]. by apply IH.
    + intros (y & ys & Hy & Hys & ->)%Forall2_cons_inv_l.
      apply IH in Hys. by rewrite Hy, Hys.
Qed.

(** The lists that the two loops build: one sample for each row and each
    drawn position, in this order. *)
Lemma collect_samples_spec rows idx_pairs candidates difference stack (tbd : gmap Z Z)
  (video_pairs : list (ndarray * ndarray)) (y : list Z) :
  collect_samples rows idx_pairs candidates difference stack tbd = Ok (video_pairs, y) →
  length video_pairs = (length rows * length idx_pairs)%nat
  ∧ length y = (length rows * length idx_pairs)%nat
  ∧ (∀ r j row idx_pair, rows !! r = Some row → idx_pairs !! j = Some idx_pair →
       ∃ stacks bucket,
         make_sample candidates difference stack tbd row idx_pair = Ok (stacks, bucket)
         ∧ video_pairs !! (r * length idx_pairs + j)%nat = Some stacks
         ∧ y !! (r * length idx_pairs + j)%nat = Some bucket)
  ∧ (∀ stacks, stacks ∈ video_pairs →
       ∃ row idx_pair bucket, row ∈ rows ∧ idx_pair ∈ idx_pairs
         ∧ make_sample candidates difference stack tbd row idx_pair = Ok (stacks, bucket)).
Proof.
  rewrite collect_samples_eq. unfold_bind.
  destruct (mapM _ rows) as [outs|] eqn:Houts; [|done]. intros [= <- <-].
  apply mapM_result_Forall2 in Houts.
  assert (Hlens : Forall (λ out, length out = length idx_pairs) outs).
  { eapply Forall2_Forall_r; [exact Houts|]. apply Forall_true.
    intros row out Hout%mapM_result_Forall2. symmetry. by eapply Forall2_length. }
  assert (Hlen : length (mjoin outs) = (length rows * length idx_pairs)%nat).
  { rewrite length_join, (sum_list_fmap_same (length idx_pairs)) by done.
    by rewrite <- (Forall2_length _ _ _ Houts). }
  rewrite !length_fmap. split; [done|]. split; [done|]. split.
  - intros r j row idx_pair Hr Hj.
    destruct (Forall2_lookup_l _ _ _ _ _ Houts Hr) as (out & Hout & Hrow).
    apply mapM_result_Forall2 in Hrow.
    destruct (Forall2_lookup_l _ _ _ _ _ Hrow Hj) as ([stacks bucket] & Hs & Hmk).
    exists stacks, bucket. split; [done|].
    assert (Hjoin : mjoin outs !! (r * length idx_pairs + j)%nat = Some (stacks, bucket)).
    { apply join_lookup_Some_same_length'; [done|by eapply lookup_lt_Some|].
      by exists out. }
    rewrite !list_lookup_fmap, Hjoin. done.
  - intros stacks ([stacks' bucket] & -> & Hin)%list_elem_of_fmap.
    apply list_elem_of_join in Hin as (out & Hin & Hout).
    apply list_elem_of_lookup in Hout as [r Hr].
    destruct (Forall2_lookup_r _ _ _ _ _ Houts Hr) as (row & Hrow & Hm).
    apply mapM_result_Forall2 in Hm.
    apply list_elem_of_lookup in Hin as [j Hj].
    destruct (Forall2_lookup_r _ _ _ _ _ Hm Hj) as (idx_pair & Hip & Hmk).
    exists row, idx_pair, bucket.
    split; [by eapply list_elem_of_lookup_2|]. split; [by eapply list_elem_of_lookup_2|done].
Qed.

(** The two loops return when every sample can be made. *)
Lemma collect_samples_ok rows idx_pairs candidates difference stack (tbd : gmap Z Z) :
  (∀ row idx_pair, row ∈ rows → idx_pair ∈ idx_pairs →
     ∃ s, make_sample candidates difference stack tbd row idx_pair = Ok s) →
  ∃ video_pairs y,
    collect_samples rows idx_pairs candidates difference stack tbd = Ok (video_pairs, y).
Proof.
  intros Hmk. rewrite collect_samples_eq.
  destruct (mapM_result_ok
              (λ row, mapM (make_sample candidates difference stack tbd row) idx_pairs)
              rows) as [outs Houts].
  { intros row Hrow. apply mapM_result_ok. intros ip Hip. by apply Hmk. }
  rewrite Houts. by eexists _, _.
Qed.

Section SamplerProperties.
Context `{NumpyRandom}.

Lemma draw_idx_pairs_eq (candidates : list (Z * Z)) (k : Z) (w : world) :
  draw_idx_pairs candidates k w
  = if decide (length candidates = 0%nat) then (Raise ValueError, reseeded w)
    else if decide (k < 0) then (Raise ValueError, reseeded w)
    else let r := np_choice (length candidates) (Z.to_nat k) (np_seed 1337) in
         (Ok r.1, World (files w) r.2).
Proof.
  unfold draw_idx_pairs, random_seed, random_choice. unfold_M.
  repeat case_decide; done.
Qed.

Lemma get_samples_at_difference_eq data difference (dd : gmap Z (list (Z * Z)))
  (k stack : Z) (tbd : gmap Z Z) (w : world) :
  get_samples_at_difference data difference dd k stack tbd w
  = match dd !! difference with
    | None => (Raise KeyError, w)
    | Some candidates =>
        match draw_idx_pairs candidates k w with
        | (Ok idx_pairs, w') =>
            (build_samples data idx_pairs candidates difference stack tbd, w')
        | (Raise e, w') => (Raise e, w')
        end
    end.
Proof.
  unfold get_samples_at_difference, dict_get. unfold_M.
  destruct (dd !! difference) as [candidates|]; [|done].
  destruct (draw_idx_pairs candidates k w) as [[idx_pairs|e] w']; done.
Qed.

(** C8: [get_samples_at_difference] reseeds the generator with 1337
    before it draws, so its outputs do not depend on the state of the
    generator at the call: two calls with equal arguments return the same
    [(video_pairs, y)] and leave the generator in the same state, and two
    draws of the same number of positions from candidate lists of the
    same length give the same positions, whichever differences the lists
    belong to. *)
Theorem sampling_deterministic (data : ndarray) (difference : Z)
  (differences_dict : gmap Z (list (Z * Z))) (num_pairs_per_example : Z)
  (num_frames_in_stack : Z) (time_buckets_dict : gmap Z Z)
  (candidates1 candidates2 : list (Z * Z)) (w1 w2 : world) :
  length candidates1 = length candidates2 →
  let call := get_samples_at_difference data difference differences_dict
                num_pairs_per_example num_frames_in_stack time_buckets_dict in
  (call w1).1 = (call w2).1
  ∧ (is_Some (differences_dict !! difference) → rng (call w1).2 = rng (call w2).2)
  ∧ (draw_idx_pairs candidates1 num_pairs_per_example w1).1
    = (draw_idx_pairs candidates2 num_pairs_per_example w2).1.
Proof.
  intros Hlen call. unfold call. rewrite !get_samples_at_difference_eq.
  split; [|split].
  - destruct (differences_dict !! difference) as [candidates|]; [|done].
    rewrite !draw_idx_pairs_eq. repeat case_decide; done.
  - intros [candidates Hc]. rewrite Hc.
    rewrite !draw_idx_pairs_eq. repeat case_decide; done.
  - rewrite !draw_idx_pairs_eq, Hlen. repeat case_decide; done.
Qed.

(** C5: every sample that [get_samples_at_difference] emits at time
    difference [difference], the one of row [r] and drawn position [j],
    holds two stacks that are the frames of the row at the contiguous run
    of exactly [num_frames_in_stack] indices
    [last - num_frames_in_stack + 1, ..., last] ending at the two indices
    [last] of the selected candidate pair, and its label is
    [time_buckets_dict[difference]]. *)
Theorem samples_are_stacks (data : ndarray) (difference : Z)
  (differences_dict : gmap Z (list (Z * Z))) (num_pairs_per_example : Z)
  (num_frames_in_stack : Z) (time_buckets_dict : gmap Z Z)
  (w w' : world) (X y : ndarray) :
  nd_wf data →
  get_samples_at_difference data difference differences_dict num_pairs_per_example
    num_frames_in_stack time_buckets_dict w = (Ok (X, y), w') →
  ∃ candidates idx_pairs rows,
    differences_dict !! difference = Some candidates
    ∧ (draw_idx_pairs candidates num_pairs_per_example w).1 = Ok idx_pairs
    ∧ nd_rows data = Ok rows
    ∧ ∀ (r j : nat) (row : ndarray) (idx_pair : nat),
        rows !! r = Some row → idx_pairs !! j = Some idx_pair →
        let k := (r * length idx_pairs + j)%nat in
        ∃ (last1 last2 bucket : Z) (stack1 stack2 : ndarray),
          candidates !! idx_pair = Some (last1, last2)
          ∧ nd_take row (seqZ (last1 - num_frames_in_stack + 1) num_frames_in_stack)
            = Ok stack1
          ∧ nd_take row (seqZ (last2 - num_frames_in_stack + 1) num_frames_in_stack)
            = Ok stack2
          ∧ nd_row (nd_row X k) 0 = stack1
          ∧ nd_row (nd_row X k) 1 = stack2
          ∧ shape stack1 !! 0%nat = Some (Z.to_nat num_frames_in_stack)
          ∧ shape stack2 !! 0%nat = Some (Z.to_nat num_frames_in_stack)
          ∧ time_buckets_dict !! difference = Some bucket
          ∧ flat y !! k = Some bucket.
Proof.
  intros Hwf. rewrite get_samples_at_difference_eq.
  destruct (differences_dict !! difference) as [candidates|]; [|done].
  destruct (draw_idx_pairs candidates num_pairs_per_example w) as [[idx_pairs|e] w1]
    eqn:Hdraw; [|done].
  intros [= Hbuild <-]. exists candidates, idx_pairs.
  unfold build_samples in Hbuild. unfold_bind.
  destruct (nd_rows data) as [rows|] eqn:Hrows; [|done].
  destruct (collect_samples _ _ _ _ _ _) as [[video_pairs ys]|] eqn:Hcollect; [|done].
  destruct (np_array_pairs video_pairs) as [X'|] eqn:Harr; [|done].
  injection Hbuild as <- <-. exists rows.
  split; [done|]. split; [by rewrite Hdraw|]. split; [done|].
  destruct (collect_samples_spec _ _ _ _ _ _ _ _ Hcollect) as (_ & _ & Hat & Hfrom).
  assert (Hrowswf : ∀ row, row ∈ rows → nd_wf row).
  { unfold nd_rows in Hrows. destruct (shape data) as [|n s] eqn:Hs; [done|].
    injection Hrows as <-. intros row Hrow.
    by apply (nd_rows_spec data n s Hs). }
  assert (Hvwf : Forall (λ p, nd_wf p.1 ∧ nd_wf p.2) video_pairs).
  { apply Forall_forall. intros stacks (row & ip & b & Hrow & _ & Hmk)%Hfrom.
    apply make_sample_spec in Hmk as (l1 & l2 & _ & H1 & H2 & _).
    apply nd_take_spec in H1 as (? & ? & _ & _ & Hw1 & _).
    apply nd_take_spec in H2 as (? & ? & _ & _ & Hw2 & _).
    split; [apply Hw1 | apply Hw2]; by apply Hrowswf. }
  intros r j row idx_pair Hr Hj. cbv zeta.
  destruct (Hat r j row idx_pair Hr Hj) as ([stack1 stack2] & bucket & Hmk & Hv & Hy).
  apply make_sample_spec in Hmk as (last1 & last2 & Hc & H1 & H2 & Hb).
  rewrite stack_frames_run in H1, H2. simpl in H1, H2.
  exists last1, last2, bucket, stack1, stack2. do 3 (split; [done|]).
  destruct (np_array_pairs_spec _ _ Harr) as [[-> _]|(sh & _ & _ & _ & Hitems)]; [done|].
  destruct (Hitems Hvwf _ _ Hv) as [Hx1 Hx2]. do 2 (split; [done|]).
  apply nd_take_spec in H1 as (? & ? & _ & -> & _).
  apply nd_take_spec in H2 as (? & ? & _ & -> & _).
  rewrite !length_seqZ. done.
Qed.

End SamplerProperties.

(** ** The cache and the assertion of [get_paired_data] *)

Section PairedDataProperties.
Context `{NumpyRandom}.

Lemma load_data_world project_dir data_dir filename (w : world) :
  (load_data project_dir data_dir filename w).2 = w.
Proof.
  unfold load_data, np_load. unfold_M.
  destruct (files w !! _); [|done]. by destruct (swapaxes01 _).
Qed.

(** The frames per video of a loaded array. *)
Lemma load_data_shape project_dir data_dir filename (w : world) (data : ndarray) :
  (load_data project_dir data_dir filename w).1 = Ok data →
  ∃ n0 n1 s, shape data = n0 :: n1 :: s.
Proof.
  unfold load_data, np_load. unfold_M.
  destruct (files w !! _) as [raw|]; [|done]. simpl.
  unfold swapaxes01. destruct (shape raw) as [|n0 [|n1 s]]; try done.
  intros [= <-]. by exists n1, n0, s.
Qed.

(** [get_paired_data] after its first lines: the call has loaded [data],
    read [num_total_frames] and computed [max_frame_diff]. *)
Lemma get_paired_data_eq project_dir data_dir plots_dir filename time_buckets
  num_passes num_pairs stack force (w : world) (data : ndarray) (n : nat)
  (max_frame_diff : np_num) :
  (load_data project_dir data_dir filename w).1 = Ok data →
  shape data !! 1%nat = Some n →
  hstack_max time_buckets = Ok max_frame_diff →
  get_paired_data project_dir data_dir plots_dir filename time_buckets num_passes
    num_pairs stack force w
  = if bool_decide (np_val max_frame_diff ≤ Z.of_nat n - stack) then
      let (X_path, y_path) := cache_paths project_dir data_dir filename in
      if negb force && bool_decide (is_Some (files w !! X_path))
         && bool_decide (is_Some (files w !! y_path))
      then match files w !! X_path, files w !! y_path with
           | Some X, Some y => (Ok (X, y), w)
           | _, _ => (Raise FileNotFoundError, w)
           end
      else match generate_pairs data time_buckets (Z.of_nat n) max_frame_diff num_passes
                   num_pairs stack w with
           | (Ok (X, y), w') =>
               (Ok (X, y), World (<[y_path := y]> (<[X_path := X]> (files w'))) (rng w'))
           | (Raise e, w') => (Raise e, w')
           end
    else (Raise AssertionError, w).
Proof.
  intros Hload Hn Hmax. unfold get_paired_data.
  pose proof (load_data_world project_dir data_dir filename w) as Hw.
  destruct (load_data project_dir data_dir filename w) as [r w1] eqn:Hld.
  simpl in Hload, Hw. subst r w1.
  unfold imshow, os_path_exists, load_object, save_object, list_get, py_assert.
  unfold_M. rewrite Hld, Hn, Hmax. unfold fmap, result_fmap.
  case_bool_decide; [|done].
  destruct (cache_paths project_dir data_dir filename) as [X_path y_path].
  destruct (negb force && _ && _) eqn:Hhit.
  - destruct (files w !! X_path), (files w !! y_path); done.
  - destruct (generate_pairs _ _ _ _ _ _ _ w) as [[[X y]|e] w']; done.
Qed.

(** C10: the assertion comes before the cache is looked at. When the
    maximal difference exceeds [num_total_frames - num_frames_in_stack],
    the call raises [AssertionError], whatever [force] is and whatever
    files exist, the two cache files included. *)
Theorem assertion_before_cache project_dir data_dir plots_dir filename
  (time_buckets : list (list Z)) (num_passes_for_generation num_pairs_per_example : Z)
  (num_frames_in_stack : Z) (force : bool) (w : world) (data : ndarray)
  (num_total_frames : nat) (max_frame_diff : np_num) :
  (load_data project_dir data_dir filename w).1 = Ok data →
  shape data !! 1%nat = Some num_total_frames →
  hstack_max time_buckets = Ok max_frame_diff →
  np_val max_frame_diff > Z.of_nat num_total_frames - num_frames_in_stack →
  get_paired_data project_dir data_dir plots_dir filename time_buckets
    num_passes_for_generation num_pairs_per_example num_frames_in_stack force w
  = (Raise AssertionError, w).
Proof.
  intros Hload Hn Hmax Hgt.
  rewrite (get_paired_data_eq _ _ _ _ _ _ _ _ _ _ _ _ _ Hload Hn Hmax).
  rewrite bool_decide_eq_false_2; [done|lia].
Qed.

(** The entry script on Moving MNIST, whose videos have 20 frames: the
    configured buckets reach a difference of 19 and the stack length is
    left at its default 2, so the call stops at the assertion. *)
Remark main_get_paired_data_asserts (PROJECT_DIR DATASET : string) (w : world)
  (data : ndarray) :
  (load_data PROJECT_DIR DATA_DIR DATASET w).1 = Ok data →
  shape data !! 1%nat = Some 20%nat →
  main_get_paired_data PROJECT_DIR DATASET w = (Raise AssertionError, w).
Proof.
  intros Hload Hn. unfold main_get_paired_data.
  by rewrite (get_paired_data_eq _ _ _ _ _ _ _ _ _ _ _ _ _ Hload Hn TIME_BUCKETS_max).
Qed.

(** C7, as the code has it: when the data file loads, the assertion
    passes, both cache files exist and [force] is false, the call returns
    the two cached arrays and leaves the files and the generator as they
    were. The cache paths are computed from the directories and the file
    name alone, so two calls that differ in the buckets, the passes, the
    pairs per example and the stack length return the same cached arrays. *)
Theorem cache_hit_ignores_parameters project_dir data_dir plots_dir filename
  (time_buckets time_buckets' : list (list Z))
  (num_passes_for_generation num_passes_for_generation' : Z)
  (num_pairs_per_example num_pairs_per_example' : Z)
  (num_frames_in_stack num_frames_in_stack' : Z)
  (w : world) (data : ndarray) (num_total_frames : nat)
  (max_frame_diff max_frame_diff' : np_num) (X y : ndarray) :
  (load_data project_dir data_dir filename w).1 = Ok data →
  shape data !! 1%nat = Some num_total_frames →
  hstack_max time_buckets = Ok max_frame_diff →
  np_val max_frame_diff ≤ Z.of_nat num_total_frames - num_frames_in_stack →
  hstack_max time_buckets' = Ok max_frame_diff' →
  np_val max_frame_diff' ≤ Z.of_nat num_total_frames - num_frames_in_stack' →
  files w !! (cache_paths project_dir data_dir filename).1 = Some X →
  files w !! (cache_paths project_dir data_dir filename).2 = Some y →
  get_paired_data project_dir data_dir plots_dir filename time_buckets
    num_passes_for_generation num_pairs_per_example num_frames_in_stack false w
  = (Ok (X, y), w)
  ∧ get_paired_data project_dir data_dir plots_dir filename time_buckets'
      num_passes_for_generation' num_pairs_per_example' num_frames_in_stack' false w
    = (Ok (X, y), w).
Proof.
  intros Hload Hn Hmax Hle Hmax' Hle' HX Hy.
  rewrite (get_paired_data_eq _ _ _ _ _ _ _ _ _ _ _ _ _ Hload Hn Hmax).
  rewrite (get_paired_data_eq _ _ _ _ _ _ _ _ _ _ _ _ _ Hload Hn Hmax').
  rewrite !bool_decide_eq_true_2 by done.
  destruct (cache_paths project_dir data_dir filename) as [X_path y_path].
  simpl in HX, Hy. rewrite HX, Hy.
  rewrite !bool_decide_eq_true_2 by done. done.
Qed.

End PairedDataProperties.

(** ** No assertion but the one of [get_paired_data]

    The helpers raise [KeyError], [IndexError], [ValueError] or
    [TypeError], never [AssertionError]. *)

Lemma no_assert_bind {A B : Type} (m : result A) (f : A → result B) :
  no_assert m → (∀ a, m = Ok a → no_assert (f a)) → no_assert (m ≫= f).
Proof.
  unfold no_assert. destruct m as [a|e]; unfold_bind; intros Hm Hf; [exact (Hf a eq_refl)|].
  intros [= ->]. by apply Hm.
Qed.

Lemma no_assert_Raise {A B : Type} (e : exn) :
  no_assert (@Raise A e) → no_assert (@Raise B e).
Proof. intros He [= ->]. by apply He. Qed.

Lemma no_assert_mapM {A B : Type} (f : A → result B) (l : list A) :
  (∀ x, no_assert (f x)) → no_assert (mapM f l).
Proof.
  intros Hf. induction l as [|x l IH]; [done|]. cbn [mapM].
  apply no_assert_bind; [done|]. intros y _.
  apply no_assert_bind; [done|]. done.
Qed.

Lemma no_assert_nd_take (a : ndarray) (idxs : list Z) : no_assert (nd_take a idxs).
Proof.
  unfold nd_take. destruct (shape a) as [|n s]; [done|].
  apply no_assert_bind; [|done]. apply no_assert_mapM. intros i.
  unfold norm_index. repeat case_decide; done.
Qed.

Lemma no_assert_make_sample candidates difference stack (tbd : gmap Z Z) row idx_pair :
  no_assert (make_sample candidates difference stack tbd row idx_pair).
Proof.
  unfold make_sample. apply no_assert_bind.
  { unfold list_get. by destruct (candidates !! idx_pair). }
  intros [last1 last2] _.
  apply no_assert_bind; [apply no_assert_nd_take|]. intros s1 _.
  apply no_assert_bind; [apply no_assert_nd_take|]. intros s2 _.
  apply no_assert_bind; [|done]. unfold dict_get. by destruct (tbd !! difference).
Qed.

Lemma no_assert_build_samples data idx_pairs candidates difference stack
  (tbd : gmap Z Z) :
  no_assert (build_samples data idx_pairs candidates difference stack tbd).
Proof.
  unfold build_samples. apply no_assert_bind.
  { unfold nd_rows. by destruct (shape data). }
  intros rows _. apply no_assert_bind.
  { rewrite collect_samples_eq. apply no_assert_bind; [|done].
    apply no_assert_mapM. intros row. apply no_assert_mapM. intros ip.
    apply no_assert_make_sample. }
  intros [video_pairs y] _. apply no_assert_bind; [|done].
  unfold np_array_pairs. destruct video_pairs as [|[a b] l]; [done|].
  by destruct (forallb _ _).
Qed.

Lemma no_assert_np_vstack (a b : ndarray) : no_assert (np_vstack a b).
Proof.
  unfold np_vstack. destruct (shape (atleast_2d a)), (shape (atleast_2d b)); try done.
  by case_decide.
Qed.

Lemma no_assert_get_frame_differences_dict ntf mfd stack :
  no_assert (get_frame_differences_dict ntf mfd stack).
Proof. unfold get_frame_differences_dict. by destruct mfd. Qed.

Section AssertionProperties.
Context `{NumpyRandom}.

Lemma no_assert_for_eachM {A S : Type} (l : list A) (body : S → A → M S) (s : S)
  (w : world) :
  (∀ s x w, no_assert (body s x w).1) → no_assert (for_eachM l body s w).1.
Proof.
  intros Hbody. revert s w. induction l as [|x l IH]; intros s w; [done|].
  cbn [for_eachM]. unfold_M. specialize (Hbody s x w).
  destruct (body s x w) as [[s'|e] w']; [apply IH|].
  by eapply no_assert_Raise.
Qed.

Lemma no_assert_get_samples_at_difference data difference
  (dd : gmap Z (list (Z * Z))) (k stack : Z) (tbd : gmap Z Z) (w : world) :
  no_assert (get_samples_at_difference data difference dd k stack tbd w).1.
Proof.
  rewrite get_samples_at_difference_eq.
  destruct (dd !! difference) as [candidates|]; [|done].
  rewrite draw_idx_pairs_eq. repeat case_decide; try done.
  apply no_assert_build_samples.
Qed.

Lemma no_assert_np_range (n : np_num) : no_assert (np_range n).
Proof. by destruct n. Qed.

Lemma no_assert_generate_pairs data time_buckets ntf mfd passes pairs stack (w : world) :
  no_assert (generate_pairs data time_buckets ntf mfd passes pairs stack w).1.
Proof.
  unfold generate_pairs. unfold_M.
  pose proof (no_assert_get_frame_differences_dict ntf mfd stack) as Hdd.
  destruct (get_frame_differences_dict ntf mfd stack) as [dd|e];
    [|by eapply no_assert_Raise].
  apply no_assert_for_eachM. intros acc i w1.
  pose proof (no_assert_np_range (np_succ mfd)) as Hrange.
  destruct (np_range (np_succ mfd)) as [differences|e];
    [|by eapply no_assert_Raise].
  apply no_assert_for_eachM. intros [X y] difference w2.
  pose proof (no_assert_get_samples_at_difference data difference dd pairs stack
                (get_time_buckets_dict time_buckets) w2) as Hs.
  destruct (get_samples_at_difference _ _ _ _ _ _ w2) as [[[video_pairs targets]|e] w3];
    [|by eapply no_assert_Raise].
  case_decide; [done|].
  pose proof (no_assert_np_vstack X video_pairs) as Hv.
  destruct (np_vstack X video_pairs); [done|by eapply no_assert_Raise].
Qed.

(** C2: once the data is loaded and the maximal difference of the
    buckets is computed, [get_paired_data] raises [AssertionError] if and
    only if [max_frame_diff > num_total_frames - num_frames_in_stack]; for
    [max_frame_diff ≤ num_total_frames - num_frames_in_stack] the call
    does not fail on the assertion, and nothing else in it raises one. *)
Theorem assertion_iff project_dir data_dir plots_dir filename
  (time_buckets : list (list Z)) (num_passes_for_generation num_pairs_per_example : Z)
  (num_frames_in_stack : Z) (force : bool) (w : world) (data : ndarray)
  (num_total_frames : nat) (max_frame_diff : np_num) :
  (load_data project_dir data_dir filename w).1 = Ok data →
  shape data !! 1%nat = Some num_total_frames →
  hstack_max time_buckets = Ok max_frame_diff →
  (get_paired_data project_dir data_dir plots_dir filename time_buckets
     num_passes_for_generation num_pairs_per_example num_frames_in_stack force w).1
  = Raise AssertionError
  ↔ np_val max_frame_diff > Z.of_nat num_total_frames - num_frames_in_stack.
Proof.
  intros Hload Hn Hmax.
  rewrite (get_paired_data_eq _ _ _ _ _ _ _ _ _ _ _ _ _ Hload Hn Hmax).
  case_bool_decide as Hle; [|split; [lia|done]].
  split; [|lia]. intros Hraise. exfalso. revert Hraise.
  destruct (cache_paths project_dir data_dir filename) as [X_path y_path].
  destruct (negb force && _ && _) eqn:Hhit.
  - destruct (files w !! X_path), (files w !! y_path); done.
  - pose proof (no_assert_generate_pairs data time_buckets (Z.of_nat num_total_frames)
                  max_frame_diff num_passes_for_generation num_pairs_per_example
                  num_frames_in_stack w) as Hgen.
    destruct (generate_pairs _ _ _ _ _ _ _ w) as [[[X y]|e] w']; [done|].
    simpl. intros [= ->]. by apply Hgen.
Qed.

End AssertionProperties.

(** ** File names and cache paths *)

Lemma string_app_cons (x : ascii) (a b : string) :
  String x a +:+ b = String x (a +:+ b).
Proof. reflexivity. Qed.

Lemma string_app_nil_l (a : string) : EmptyString +:+ a = a.
Proof. reflexivity. Qed.

Lemma string_app_assoc (a b c : string) : (a +:+ b) +:+ c = a +:+ (b +:+ c).
Proof.
  induction a as [|x a IH]; [reflexivity|]. by rewrite !string_app_cons, IH.
Qed.

Lemma contains_app (c : ascii) (a b : string) :
  contains c (a +:+ b) = contains c a || contains c b.
Proof.
  induction a as [|x a IH]; [reflexivity|].
  rewrite string_app_cons. simpl. by rewrite IH, orb_assoc.
Qed.

Lemma py_split_nonempty (sep : ascii) (s : string) : py_split sep s ≠ [].
Proof.
  destruct s as [|c s]; simpl; [done|].
  case_decide; [done|]. by destruct (py_split sep s).
Qed.

(** Joining the pieces of a split gives the string back. *)
Lemma py_join_split (sep : ascii) (s : string) :
  py_join (String sep EmptyString) (py_split sep s) = s.
Proof.
  induction s as [|c s IH]; [done|]. cbn [py_split].
  pose proof (py_split_nonempty sep s) as Hne.
  destruct (py_split sep s) as [|h t] eqn:Hsplit; [done|].
  case_decide as Hc.
  - subst c.
    change (py_join (String sep EmptyString) (EmptyString :: h :: t))
      with (String sep (py_join (String sep EmptyString) (h :: t))).
    by rewrite IH.
  - destruct t as [|h' t]; [simpl in *; by subst|].
    change (py_join (String sep EmptyString) (String c h :: h' :: t))
      with (String c (py_join (String sep EmptyString) (h :: h' :: t))).
    by rewrite IH.
Qed.

Lemma py_split_no_sep (sep : ascii) (s : string) :
  Forall (λ x, contains sep x = false) (py_split sep s).
Proof.
  induction s as [|c s IH]; [by repeat constructor|]. cbn [py_split].
  case_decide as Hc; [by constructor|].
  destruct (py_split sep s) as [|h t]; [repeat constructor|].
  - simpl. by rewrite bool_decide_eq_false_2.
  - apply Forall_cons in IH as [Hh Ht]. constructor; [|done].
    simpl. by rewrite bool_decide_eq_false_2.
Qed.

Lemma py_join_snoc (sep : string) (l : list string) (x : string) :
  l ≠ [] → py_join sep (l ++ [x]) = py_join sep l +:+ sep +:+ x.
Proof.
  induction l as [|a l IH]; [done|]. intros _.
  destruct l as [|b l]; [done|].
  change (py_join sep ((a :: b :: l) ++ [x]))
    with (a +:+ sep +:+ py_join sep ((b :: l) ++ [x])).
  rewrite IH by done.
  change (py_join sep (a :: b :: l)) with (a +:+ sep +:+ py_join sep (b :: l)).
  by rewrite !string_app_assoc.
Qed.

(** The name without its extension is what stands before the last dot;
    a name without a dot has nothing left. *)
Lemma strip_extension_spec (filename : string) :
  (∃ ext, filename = strip_extension filename +:+ "." +:+ ext)
  ∨ (strip_extension filename = EmptyString ∧ contains "." filename = false).
Proof.
  unfold strip_extension.
  pose proof (py_split_nonempty "." filename) as Hne.
  pose proof (py_join_split "." filename) as Hjoin.
  pose proof (py_split_no_sep "." filename) as Hno.
  destruct (exists_last Hne) as (l & x & Hl). rewrite Hl in *.
  rewrite removelast_last.
  destruct l as [|a l].
  - right. split; [done|]. simpl in Hjoin. subst x.
    by apply (Forall_singleton (λ x, contains "." x = false)) in Hno.
  - left. exists x. rewrite py_join_snoc in Hjoin by done. done.
Qed.

Lemma startswith_slash_app (a b : string) :
  startswith_slash (a +:+ b)
  = if bool_decide (a = EmptyString) then startswith_slash b else startswith_slash a.
Proof. destruct a; reflexivity. Qed.

(** The last step of [os.path.join]: the last component is kept as it is
    when it is absolute, and otherwise follows a prefix that does not
    depend on it. *)
Lemma os_path_join_last (a d : string) :
  ∃ prefix, ∀ g,
    os_path_join a [d; g] = if startswith_slash g then g else prefix +:+ g.
Proof.
  unfold os_path_join. cbn [foldl].
  set (q := if startswith_slash d then d else _).
  exists (if bool_decide (q = EmptyString) || endswith_slash q then q else q +:+ "/").
  intros g'. destruct (startswith_slash g'); [done|].
  destruct (bool_decide (q = EmptyString) || endswith_slash q); [done|].
  by rewrite string_app_assoc.
Qed.

(** A cache file is never the data file. *)
Lemma data_path_ne_cache_path (project_dir data_dir filename suffix : string) :
  startswith_slash suffix = false →
  (∀ ext, suffix ≠ "." +:+ ext) →
  contains "." suffix = true →
  os_path_join project_dir [data_dir; filename]
  ≠ os_path_join project_dir [data_dir; strip_extension filename +:+ suffix].
Proof.
  intros Hslash Hdot Hhas.
  destruct (os_path_join_last project_dir data_dir) as [prefix Hjoin].
  rewrite !Hjoin, startswith_slash_app.
  pose proof (strip_extension_spec filename) as Hspec.
  remember (strip_extension filename) as name eqn:Hn. clear Hn.
  destruct Hspec as [[ext Hext]|[Hname Hno]].
  - assert (Hne : filename ≠ name +:+ suffix).
    { rewrite Hext at 1. intros Heq%(inj (String.app name)). by apply (Hdot ext). }
    assert (Hsf : startswith_slash filename
                  = if bool_decide (name = EmptyString) then false
                    else startswith_slash name)
      by (rewrite Hext, startswith_slash_app; reflexivity).
    rewrite Hsf, Hslash.
    destruct (bool_decide (name = EmptyString)); [|destruct (startswith_slash name)];
      try done; by intros Heq%(inj (String.app prefix)).
  - rewrite Hname, bool_decide_eq_true_2, Hslash, string_app_nil_l by done.
    destruct (startswith_slash filename); intros Heq.
    + rewrite Heq, contains_app, Hhas, orb_true_r in Hno. done.
    + apply (inj (String.app prefix)) in Heq.
      rewrite Heq, Hhas in Hno. done.
Qed.

(** The two cache files are different files, and neither is the data
    file. *)
Lemma cache_paths_distinct (project_dir data_dir filename : string) :
  let paths := cache_paths project_dir data_dir filename in
  paths.1 ≠ paths.2
  ∧ os_path_join project_dir [data_dir; filename] ≠ paths.1
  ∧ os_path_join project_dir [data_dir; filename] ≠ paths.2.
Proof.
  unfold cache_paths. cbn [fst snd]. split; [|split].
  - destruct (os_path_join_last project_dir data_dir) as [prefix Hjoin].
    rewrite !Hjoin, !startswith_slash_app.
    replace (startswith_slash "_X.pkl") with false by reflexivity.
    replace (startswith_slash "_y.pkl") with false by reflexivity.
    assert (Hne : strip_extension filename +:+ "_X.pkl"
                  ≠ strip_extension filename +:+ "_y.pkl")
      by (by intros Heq%(inj (String.app _))).
    destruct (bool_decide _); [|destruct (startswith_slash _)];
      try done; by intros Heq%(inj (String.app prefix)).
  - apply data_path_ne_cache_path; done.
  - apply data_path_ne_cache_path; done.
Qed.

(** ** The cache round trip *)

Section CacheProperties.
Context `{NumpyRandom}.

Lemma for_eachM_files {A S : Type} (l : list A) (body : S → A → M S) (s : S) (w : world) :
  (∀ s x w, files (body s x w).2 = files w) →
  files (for_eachM l body s w).2 = files w.
Proof.
  intros Hbody. revert s w. induction l as [|x l IH]; intros s w; [done|].
  cbn [for_eachM]. unfold_M. specialize (Hbody s x w).
  destruct (body s x w) as [[s'|e] w']; [|done]. by rewrite IH.
Qed.

Lemma get_samples_at_difference_files data difference (dd : gmap Z (list (Z * Z)))
  (k stack : Z) (tbd : gmap Z Z) (w : world) :
  files (get_samples_at_difference data difference dd k stack tbd w).2 = files w.
Proof.
  rewrite get_samples_at_difference_eq.
  destruct (dd !! difference) as [candidates|]; [|done].
  rewrite draw_idx_pairs_eq. repeat case_decide; done.
Qed.

(** Generation reads and writes no file. *)
Lemma generate_pairs_files data time_buckets ntf mfd passes pairs stack (w : world) :
  files (generate_pairs data time_buckets ntf mfd passes pairs stack w).2 = files w.
Proof.
  unfold generate_pairs. unfold_M.
  destruct (get_frame_differences_dict ntf mfd stack) as [dd|e]; [|done].
  apply for_eachM_files. intros acc i w1.
  destruct (np_range (np_succ mfd)) as [differences|e]; [|done].
  apply for_eachM_files. intros [X y] difference w2.
  pose proof (get_samples_at_difference_files data difference dd pairs stack
                (get_time_buckets_dict time_buckets) w2) as Hs.
  destruct (get_samples_at_difference _ _ _ _ _ _ w2) as [[[video_pairs targets]|e] w3];
    [|done].
  case_decide; [done|]. by destruct (np_vstack X video_pairs).
Qed.

Lemma load_data_files project_dir data_dir filename (w1 w2 : world) :
  files w1 !! os_path_join project_dir [data_dir; filename]
  = files w2 !! os_path_join project_dir [data_dir; filename] →
  (load_data project_dir data_dir filename w1).1
  = (load_data project_dir data_dir filename w2).1.
Proof.
  intros Hfiles. unfold load_data, np_load. unfold_M. rewrite Hfiles.
  destruct (files w2 !! _); [|done]. by destruct (swapaxes01 _).
Qed.

(** A call that returns has loaded the data, read the number of frames
    and computed the maximal difference. *)
Lemma get_paired_data_Ok_inv project_dir data_dir plots_dir filename time_buckets
  num_passes num_pairs stack force (w : world) (r : ndarray * ndarray) :
  (get_paired_data project_dir data_dir plots_dir filename time_buckets num_passes
     num_pairs stack force w).1 = Ok r →
  ∃ data n max_frame_diff,
    (load_data project_dir data_dir filename w).1 = Ok data
    ∧ shape data !! 1%nat = Some n
    ∧ hstack_max time_buckets = Ok max_frame_diff.
Proof.
  unfold get_paired_data, imshow, list_get. unfold_M.
  destruct (load_data project_dir data_dir filename w) as [[data|e] w1]; [|done].
  destruct (shape data !! 1%nat) as [n|] eqn:Hn; [|done].
  destruct (hstack_max time_buckets) as [mfd|]; [|done].
  intros _. by exists data, n, mfd.
Qed.

(** C9: the arrays that a fresh generation returns are the ones it
    leaves in the cache: after the call, [load_object] at the two cache
    paths gives back [X] and [y], and a second call that finds the cache
    returns the identical pair of arrays. *)
Theorem cache_round_trip project_dir data_dir plots_dir filename
  (time_buckets : list (list Z)) (num_passes_for_generation num_pairs_per_example : Z)
  (num_frames_in_stack : Z) (force : bool) (w w' : world) (X y : ndarray) :
  force = true
  ∨ files w !! (cache_paths project_dir data_dir filename).1 = None
  ∨ files w !! (cache_paths project_dir data_dir filename).2 = None →
  get_paired_data project_dir data_dir plots_dir filename time_buckets
    num_passes_for_generation num_pairs_per_example num_frames_in_stack force w
  = (Ok (X, y), w') →
  load_object (cache_paths project_dir data_dir filename).1 w' = (Ok X, w')
  ∧ load_object (cache_paths project_dir data_dir filename).2 w' = (Ok y, w')
  ∧ get_paired_data project_dir data_dir plots_dir filename time_buckets
      num_passes_for_generation num_pairs_per_example num_frames_in_stack false w'
    = (Ok (X, y), w').
Proof.
  intros Hfresh Hcall.
  destruct (get_paired_data_Ok_inv project_dir data_dir plots_dir filename time_buckets
              num_passes_for_generation num_pairs_per_example num_frames_in_stack
              force w (X, y)) as (data & n & mfd & Hload & Hn & Hmax);
    [by rewrite Hcall|].
  pose proof (cache_paths_distinct project_dir data_dir filename) as (Hxy & HdX & Hdy).
  rewrite (get_paired_data_eq _ _ _ _ _ _ _ _ _ _ _ _ _ Hload Hn Hmax) in Hcall.
  case_bool_decide as Hle; [|done].
  destruct (cache_paths project_dir data_dir filename) as [X_path y_path] eqn:Hpaths.
  cbn [fst snd] in *.
  assert (Hmiss : negb force && bool_decide (is_Some (files w !! X_path))
                  && bool_decide (is_Some (files w !! y_path)) = false).
  { destruct Hfresh as [->|[Hnone|Hnone]]; [done| |]; rewrite Hnone;
      rewrite (bool_decide_eq_false_2 (is_Some None)) by (by intros [? ?]);
      by rewrite ?andb_false_r. }
  rewrite Hmiss in Hcall.
  pose proof (generate_pairs_files data time_buckets (Z.of_nat n) mfd
                num_passes_for_generation num_pairs_per_example num_frames_in_stack w)
    as Hfiles.
  destruct (generate_pairs _ _ _ _ _ _ _ w) as [[[X0 y0]|e] w2]; [|done].
  injection Hcall as -> -> <-. cbn [snd] in Hfiles.
  assert (HX : files (World (<[y_path:=y]> (<[X_path:=X]> (files w2))) (rng w2)) !! X_path
               = Some X)
    by (cbn [files]; by rewrite lookup_insert_ne, lookup_insert_eq).
  assert (Hy : files (World (<[y_path:=y]> (<[X_path:=X]> (files w2))) (rng w2)) !! y_path
               = Some y)
    by (cbn [files]; by rewrite lookup_insert_eq).
  set (w' := World (<[y_path:=y]> (<[X_path:=X]> (files w2))) (rng w2)) in *.
  split; [by unfold load_object; rewrite HX|].
  split; [by unfold load_object; rewrite Hy|].
  assert (Hload' : (load_data project_dir data_dir filename w').1 = Ok data).
  { rewrite <- Hload. apply load_data_files. unfold w'. cbn [files].
    by rewrite !lookup_insert_ne, Hfiles by done. }
  rewrite (get_paired_data_eq _ _ _ _ _ _ _ _ _ _ _ _ _ Hload' Hn Hmax), Hpaths.
  rewrite bool_decide_eq_true_2 by done.
  rewrite HX, Hy, !bool_decide_eq_true_2 by done. done.
Qed.

End CacheProperties.

(** ** The shapes of a fresh generation *)

Lemma np_array_pairs_ok (l : list (ndarray * ndarray)) (sh : list nat) :
  l ≠ [] →
  Forall (λ p, shape p.1 = sh ∧ shape p.2 = sh) l →
  ∃ X, np_array_pairs l = Ok X ∧ shape X = length l :: 2%nat :: sh.
Proof.
  intros Hne Hall. destruct l as [|[a b] l]; [done|].
  unfold np_array_pairs.
  pose proof (Forall_inv Hall) as [Ha _]. simpl in Ha. subst sh.
  rewrite (proj2 (forallb_forall _ _)).
  - eexists; split; [reflexivity|done].
  - intros p Hp%list_elem_of_In. rewrite Forall_forall in Hall.
    destruct (Hall p Hp) as [H1 H2].
    by rewrite !bool_decide_eq_true_2.
Qed.

Section ShapeProperties.
Context `{NumpyRandom}.

Lemma M_bind_lift_Ok {A B : Type} (a : A) (f : A → M B) (w : world) :
  (lift (Ok a) ≫= f) w = f a w.
Proof. reflexivity. Qed.

Lemma M_bind_Ok {A B : Type} (m : M A) (f : A → M B) (w w' : world) (a : A) :
  m w = (Ok a, w') → (m ≫= f) w = f a w'.
Proof. intros Hm. unfold_M. by rewrite Hm. Qed.

(** A loop in [M] whose body keeps an invariant and never raises returns,
    with the invariant at the length of the list. *)
Lemma for_eachM_inv {A S : Type} (P : nat → S → world → Prop) (l : list A)
  (body : S → A → M S) (s : S) (w : world) :
  P 0%nat s w →
  (∀ i x s w, l !! i = Some x → P i s w →
     ∃ s' w', body s x w = (Ok s', w') ∧ P (Datatypes.S i) s' w') →
  ∃ s' w', for_eachM l body s w = (Ok s', w') ∧ P (length l) s' w'.
Proof.
  revert P s w. induction l as [|x l IH]; intros P s w H0 Hstep.
  - by exists s, w.
  - destruct (Hstep 0%nat x s w eq_refl H0) as (s1 & w1 & Hb & H1).
    destruct (IH (λ i, P (Datatypes.S i)) s1 w1 H1) as (s' & w' & Hs' & HP).
    { intros i y t u Hi. apply (Hstep (Datatypes.S i)). done. }
    exists s', w'. split; [|done]. cbn [for_eachM]. unfold_M. by rewrite Hb.
Qed.

(** One call of the sampler on a table entry whose pairs leave room for
    the stacks: it returns [num_videos * num_pairs_per_example] samples. *)
Lemma get_samples_at_difference_ok (data : ndarray) (nv ntf : nat) (fs : list nat)
  (difference : Z) (dd : gmap Z (list (Z * Z))) (candidates : list (Z * Z))
  (pairs stack bucket : Z) (tbd : gmap Z Z) (w : world) :
  shape data = nv :: ntf :: fs →
  dd !! difference = Some candidates →
  candidates ≠ [] →
  Forall (λ p, stack - 1 ≤ p.1 ≤ Z.of_nat ntf - 1 ∧ stack - 1 ≤ p.2 ≤ Z.of_nat ntf - 1)
         candidates →
  tbd !! difference = Some bucket →
  0 ≤ pairs →
  ∃ X y w',
    get_samples_at_difference data difference dd pairs stack tbd w = (Ok (X, y), w')
    ∧ shape y = [(nv * Z.to_nat pairs)%nat]
    ∧ ((0 < nv * Z.to_nat pairs)%nat →
       shape X = (nv * Z.to_nat pairs)%nat :: 2%nat :: Z.to_nat stack :: fs).
Proof.
  intros Hshape Hdd Hne Hcands Hb Hpairs.
  rewrite get_samples_at_difference_eq, Hdd, draw_idx_pairs_eq.
  rewrite decide_False by (by destruct candidates).
  rewrite decide_False by lia. cbv zeta.
  pose proof (np_choice_length (length candidates) (Z.to_nat pairs) (np_seed 1337))
    as Hlen.
  pose proof (np_choice_bound (length candidates) (Z.to_nat pairs) (np_seed 1337))
    as Hbound.
  destruct (np_choice _ _ _) as [idx_pairs g]. cbn [fst snd] in *.
  assert (Hbound' : Forall (λ i, (i < length candidates)%nat) idx_pairs)
    by (apply Hbound; destruct candidates; [done|simpl; lia]).
  clear Hbound. unfold build_samples.
  destruct (nd_rows_spec data nv (ntf :: fs) Hshape) as (-> & Hnrows & Hrows).
  unfold_bind. set (rows := nd_row data <$> seq 0 nv) in *.
  assert (Hmk : ∀ row idx_pair, row ∈ rows → idx_pair ∈ idx_pairs →
            ∃ s, make_sample candidates difference stack tbd row idx_pair = Ok s).
  { intros row ip [Hrs _]%Hrows Hip.
    rewrite Forall_forall in Hbound'. specialize (Hbound' ip Hip).
    destruct (lookup_lt_is_Some_2 candidates ip Hbound') as [[last1 last2] Hc].
    rewrite Forall_forall in Hcands.
    destruct (Hcands _ (list_elem_of_lookup_2 _ _ _ Hc)) as [H1 H2]. simpl in H1, H2.
    destruct (nd_take_ok row ntf fs (stack_frames last1 stack) Hrs) as (s1 & Hs1 & _).
    { rewrite stack_frames_run. apply Forall_forall. intros i Hi%elem_of_seqZ. lia. }
    destruct (nd_take_ok row ntf fs (stack_frames last2 stack) Hrs) as (s2 & Hs2 & _).
    { rewrite stack_frames_run. apply Forall_forall. intros i Hi%elem_of_seqZ. lia. }
    exists ((s1, s2), bucket). apply make_sample_spec. by exists last1, last2. }
  destruct (collect_samples_ok rows idx_pairs candidates difference stack tbd Hmk)
    as (video_pairs & ys & Hcollect).
  rewrite Hcollect.
  destruct (collect_samples_spec _ _ _ _ _ _ _ _ Hcollect) as (Hlv & Hly & _ & Hfrom).
  rewrite Hnrows, Hlen in Hlv, Hly.
  assert (Hshapes : Forall (λ p, shape p.1 = Z.to_nat stack :: fs
                                 ∧ shape p.2 = Z.to_nat stack :: fs) video_pairs).
  { apply Forall_forall. intros stacks (row & ip & b & Hrow & _ & Hms)%Hfrom.
    destruct (Hrows row Hrow) as [Hrs _].
    apply make_sample_spec in Hms as (l1 & l2 & _ & H1 & H2 & _).
    apply nd_take_spec in H1 as (n1 & t1 & Ht1 & -> & _).
    apply nd_take_spec in H2 as (n2 & t2 & Ht2 & -> & _).
    rewrite Hrs in Ht1, Ht2. injection Ht1 as <- <-. injection Ht2 as <- <-.
    by rewrite !stack_frames_run, !length_seqZ. }
  destruct video_pairs as [|p0 video_pairs].
  - eexists _, _, _. split; [reflexivity|]. simpl in Hlv.
    split; [unfold np_array_ints; simpl; by rewrite Hly|]. lia.
  - destruct (np_array_pairs_ok (p0 :: video_pairs) _ ltac:(done) Hshapes)
      as (X & HX & HXs).
    rewrite HX. eexists _, _, _. split; [reflexivity|].
    split; [unfold np_array_ints; simpl; by rewrite Hly|].
    intros _. by rewrite HXs, Hlv.
Qed.

(** Stacking a block of samples under an array of samples. *)
Lemma np_vstack_samples (X V : ndarray) (n m a b : nat) (s : list nat) :
  shape X = n :: a :: b :: s → shape V = m :: a :: b :: s →
  ∃ X', np_vstack X V = Ok X' ∧ shape X' = (n + m)%nat :: a :: b :: s.
Proof.
  intros HX HV. unfold np_vstack, atleast_2d. rewrite HX, HV. cbn [shape].
  rewrite HX, HV, decide_True by done. eexists; split; [reflexivity|done].
Qed.

(** The entries of the candidate table that a valid configuration reads:
    none is empty, and every pair leaves room for the two stacks. *)
Lemma candidates_fit (ntf mfd stack d : Z) :
  1 ≤ stack → mfd ≤ ntf - stack → 0 ≤ d ≤ mfd →
  let candidates := candidate_run ntf (stack - 1) (stack - 1 + d) in
  candidates ≠ []
  ∧ Forall (λ p, stack - 1 ≤ p.1 ≤ ntf - 1 ∧ stack - 1 ≤ p.2 ≤ ntf - 1) candidates.
Proof.
  intros Hstack Hmfd Hd candidates. split.
  - unfold candidates. by rewrite candidate_run_cons by lia.
  - apply Forall_forall. intros [a b] (k & Hk & -> & ->)%elem_of_candidate_run.
    simpl. lia.
Qed.

(** The generation passes under a valid configuration: every call of the
    sampler returns, and the arrays grow by [num_videos *
    num_pairs_per_example] samples per pass and difference. *)
Lemma generate_pairs_shapes (data : ndarray) (nv ntf : nat) (fs : list nat)
  (time_buckets : list (list Z)) (mfd passes pairs stack : Z) (w : world) :
  shape data = nv :: ntf :: fs →
  1 ≤ stack → 0 ≤ mfd → mfd ≤ Z.of_nat ntf - stack →
  (∀ d, 0 ≤ d ≤ mfd → is_Some (get_time_buckets_dict time_buckets !! d)) →
  (0 < nv)%nat → 1 ≤ pairs → (0 < shape_size fs)%nat →
  let n1 := (nv * Z.to_nat pairs)%nat in
  let K := (Z.to_nat passes * Z.to_nat (mfd + 1))%nat in
  ∃ X y w',
    generate_pairs data time_buckets (Z.of_nat ntf) (NpInt mfd) passes pairs stack w
    = (Ok (X, y), w')
    ∧ shape y = [(K * n1)%nat]
    ∧ ((0 < K)%nat → shape X = (K * n1)%nat :: 2%nat :: Z.to_nat stack :: fs)
    ∧ (K = 0%nat → X = np_empty).
Proof.
  intros Hshape Hstack Hmfd0 Hmfd Hbuckets Hnv Hpairs Hfs n1 K.
  set (D := Z.to_nat (mfd + 1)).
  set (inv := λ (k : nat) (acc : ndarray * ndarray),
         shape acc.2 = [(k * n1)%nat]
         ∧ ((0 < k)%nat → shape acc.1 = (k * n1)%nat :: 2%nat :: Z.to_nat stack :: fs)
         ∧ (k = 0%nat → acc.1 = np_empty)).
  assert (Hn1 : (0 < n1)%nat) by (unfold n1; nia).
  unfold generate_pairs.
  assert (Hdd : ∃ dd, get_frame_differences_dict (Z.of_nat ntf) (NpInt mfd) stack = Ok dd
            ∧ ∀ d, 0 ≤ d ≤ mfd →
                dd !! d = Some (candidate_run (Z.of_nat ntf) (stack - 1) (stack - 1 + d))).
  { destruct (get_frame_differences_dict_lookup (Z.of_nat ntf) mfd stack 0)
      as (dd & Hdd & _).
    exists dd. split; [done|]. intros d Hd.
    destruct (get_frame_differences_dict_lookup (Z.of_nat ntf) mfd stack d)
      as (dd' & Hdd' & Hlook).
    rewrite Hdd in Hdd'. injection Hdd' as <-.
    by rewrite Hlook, decide_True by lia. }
  destruct Hdd as (dd & -> & Hlook). rewrite M_bind_lift_Ok.
  (* the loop over the passes *)
  lazymatch goal with
  | |- context [for_eachM ?l ?body ?s w] =>
      destruct (for_eachM_inv (λ i acc _, inv (i * D)%nat acc) l body s w)
        as ([X y] & w' & Hrun & Hinv)
  end.
  3:{ rewrite Hrun. exists X, y, w'. split; [done|].
      unfold py_range in Hinv. rewrite length_seqZ in Hinv.
      destruct Hinv as (Hy & HXpos & HX0). cbn [fst snd] in *. done. }
  { unfold inv. cbn [fst snd]. split; [done|]. split; [lia|done]. }
  intros i _ [X0 y0] w0 _ Hacc. cbv beta.
  change (np_range (np_succ (NpInt mfd))) with (Ok (py_range (mfd + 1))).
  rewrite M_bind_lift_Ok.
  (* the loop over the differences *)
  lazymatch goal with
  | |- context [for_eachM ?l ?body ?s w0] =>
      destruct (for_eachM_inv (λ j acc _, inv (i * D + j)%nat acc) l body s w0)
        as (acc' & w1 & Hrun & Hinv)
  end.
  3:{ exists acc', w1. split; [exact Hrun|].
      unfold py_range in Hinv. rewrite length_seqZ in Hinv. fold D in Hinv.
      replace (Datatypes.S i * D)%nat with (i * D + D)%nat by lia. done. }
  { by rewrite Nat.add_0_r. }
  intros j d [X1 y1] w1 Hj (Hy & HXpos & HX0). cbn [fst snd] in *.
  unfold py_range in Hj. apply lookup_seqZ in Hj as [-> Hj]. rewrite Z.add_0_l.
  replace (i * D + Datatypes.S j)%nat with (Datatypes.S (i * D + j)) by lia.
  set (k := (i * D + j)%nat) in *.
  (* one call of the sampler, and the growth of the two arrays *)
  assert (Hd : 0 ≤ Z.of_nat j ≤ mfd) by lia.
  destruct (Hbuckets _ Hd) as [bucket Hbucket].
  destruct (candidates_fit (Z.of_nat ntf) mfd stack _ Hstack Hmfd Hd) as [Hne Hfit].
  destruct (get_samples_at_difference_ok data nv ntf fs _ dd _ pairs stack bucket
              (get_time_buckets_dict time_buckets) w1 Hshape (Hlook _ Hd) Hne Hfit
              Hbucket ltac:(lia)) as (V & t & w2 & Hcall & Ht & HV).
  fold n1 in Ht, HV. specialize (HV Hn1).
  rewrite (M_bind_Ok _ _ _ _ _ Hcall).
  assert (Hyt : shape (np_append y1 t) = [(Datatypes.S k * n1)%nat]).
  { unfold np_append, nd_size. cbn [shape]. rewrite Hy, Ht. simpl. f_equal. lia. }
  destruct (decide (k = 0%nat)) as [Hk|Hk].
  - rewrite (HX0 Hk), decide_True by done. rewrite M_bind_lift_Ok.
    eexists _, _. split; [reflexivity|]. unfold inv. cbn [fst snd].
    split; [done|]. split; [intros _; rewrite HV, Hk; f_equal; lia|done].
  - assert (HXs := HXpos ltac:(lia)).
    rewrite decide_False.
    2:{ unfold nd_size. rewrite HXs, !shape_size_cons. nia. }
    destruct (np_vstack_samples X1 V _ _ _ _ _ HXs HV) as (X' & -> & HX').
    rewrite M_bind_lift_Ok.
    eexists _, _. split; [reflexivity|]. unfold inv. cbn [fst snd].
    split; [done|]. split; [intros _; rewrite HX'; f_equal; lia|done].
Qed.

(** C1, as the code has it: a fresh generation (no cache hit) under a
    valid configuration, with at least one video, pass, pair per example,
    stacked frame and pixel, returns [X] of shape
    [(N, 2, stack_len, H, W)] and [y] of shape [(N,)], where
    [N = num_videos * num_passes * (max_frame_diff + 1) * pairs_per_example]:
    every pass visits every difference from 0 to [max_frame_diff]. *)
Theorem fresh_generation_shapes project_dir data_dir plots_dir filename
  (time_buckets : list (list Z)) (num_passes_for_generation num_pairs_per_example : Z)
  (num_frames_in_stack : Z) (force : bool) (w : world) (data : ndarray)
  (num_videos num_total_frames height width : nat) (max_frame_diff : Z) :
  (load_data project_dir data_dir filename w).1 = Ok data →
  shape data = [num_videos; num_total_frames; height; width] →
  hstack_max time_buckets = Ok (NpInt max_frame_diff) →
  0 ≤ max_frame_diff ≤ Z.of_nat num_total_frames - num_frames_in_stack →
  (∀ d, 0 ≤ d ≤ max_frame_diff → ∃ bucket, bucket ∈ time_buckets ∧ d ∈ bucket) →
  force = true
  ∨ files w !! (cache_paths project_dir data_dir filename).1 = None
  ∨ files w !! (cache_paths project_dir data_dir filename).2 = None →
  1 ≤ num_passes_for_generation → 1 ≤ num_pairs_per_example →
  1 ≤ num_frames_in_stack →
  (0 < num_videos)%nat → (0 < height)%nat → (0 < width)%nat →
  let N := (num_videos * Z.to_nat num_passes_for_generation
            * Z.to_nat (max_frame_diff + 1) * Z.to_nat num_pairs_per_example)%nat in
  ∃ X y w',
    get_paired_data project_dir data_dir plots_dir filename time_buckets
      num_passes_for_generation num_pairs_per_example num_frames_in_stack force w
    = (Ok (X, y), w')
    ∧ shape X = [N; 2%nat; Z.to_nat num_frames_in_stack; height; width]
    ∧ shape y = [N].
Proof.
  intros Hload Hshape Hmax [Hmfd0 Hmfd] Hbuckets Hfresh Hpasses Hpairs Hstack
    Hnv Hh Hw N.
  assert (Hn : shape data !! 1%nat = Some num_total_frames) by by rewrite Hshape.
  rewrite (get_paired_data_eq _ _ _ _ _ _ _ _ _ _ _ _ _ Hload Hn Hmax).
  cbn [np_val]. rewrite bool_decide_eq_true_2 by done.
  destruct (cache_paths project_dir data_dir filename) as [X_path y_path].
  cbn [fst snd] in Hfresh.
  assert (Hmiss : negb force && bool_decide (is_Some (files w !! X_path))
                  && bool_decide (is_Some (files w !! y_path)) = false).
  { destruct Hfresh as [->|[Hnone|Hnone]]; [done| |]; rewrite Hnone;
      rewrite (bool_decide_eq_false_2 (is_Some None)) by (by intros [? ?]);
      by rewrite ?andb_false_r. }
  rewrite Hmiss.
  assert (Hdict : ∀ d, 0 ≤ d ≤ max_frame_diff →
            is_Some (get_time_buckets_dict time_buckets !! d)).
  { intros d Hd. rewrite get_time_buckets_dict_lookup, fmap_is_Some.
    by apply last_bucket_is_Some, Hbuckets. }
  destruct (generate_pairs_shapes data num_videos num_total_frames [height; width]
              time_buckets max_frame_diff num_passes_for_generation
              num_pairs_per_example num_frames_in_stack w Hshape Hstack Hmfd0 Hmfd
              Hdict Hnv Hpairs) as (X & y & w' & -> & Hy & HX & _).
  { simpl. nia. }
  eexists X, y, _. split; [reflexivity|].
  rewrite HX, Hy by nia. unfold N. split; f_equal; nia.
Qed.

End ShapeProperties.

(** ** Runs on the example inputs *)

Lemma assertion_before_cache_witness :
  get_paired_data "p" "d" "plots" "f.npy" [[0]; [5]] 1 1 1 false example_world_cached
  = (Raise AssertionError, example_world_cached).
Proof.
  apply (assertion_before_cache "p" "d" "plots" "f.npy" [[0]; [5]] 1 1 1 false
           example_world_cached example_data 3 (NpInt 5));
    [vm_compute; reflexivity | reflexivity | reflexivity | simpl; lia].
Defined.

Lemma assertion_iff_witness :
  (get_paired_data "p" "d" "plots" "f.npy" [[0]; [1]] 1 1 1 false example_world).1
  = Raise AssertionError
  ↔ np_val (NpInt 1) > Z.of_nat 3 - 1.
Proof.
  apply (assertion_iff "p" "d" "plots" "f.npy" [[0]; [1]] 1 1 1 false
           example_world example_data 3 (NpInt 1));
    [vm_compute; reflexivity | reflexivity | reflexivity].
Defined.

(** C7 as stated fails: both cache files exist and [force] is false, and
    yet the call raises instead of returning the cached arrays, because
    the buckets ask for a difference of 5 in videos of 3 frames. *)
Lemma cache_hit_counterexample :
  cache_paths "p" "d" "f.npy" = ("p/d/f_X.pkl"%string, "p/d/f_y.pkl"%string)
  ∧ files example_world_cached !! "p/d/f_X.pkl"%string = Some example_cached_X
  ∧ files example_world_cached !! "p/d/f_y.pkl"%string = Some example_cached_y
  ∧ (get_paired_data "p" "d" "plots" "f.npy" [[0]; [5]] 1 1 1 false
       example_world_cached).1
    ≠ Ok (example_cached_X, example_cached_y).
Proof. repeat split; try (vm_compute; reflexivity). vm_compute. discriminate. Qed.

Lemma cache_hit_ignores_parameters_witness :
  get_paired_data "p" "d" "plots" "f.npy" [[0]; [1]] 1 1 1 false example_world_cached
  = (Ok (example_cached_X, example_cached_y), example_world_cached)
  ∧ get_paired_data "p" "d" "plots" "f.npy" [[0]; [1]; [2]] 2 3 1 false
      example_world_cached
    = (Ok (example_cached_X, example_cached_y), example_world_cached).
Proof.
  apply (cache_hit_ignores_parameters "p" "d" "plots" "f.npy" [[0]; [1]] [[0]; [1]; [2]]
           1 2 1 3 1 1 example_world_cached example_data 3 (NpInt 1) (NpInt 2));
    try reflexivity; try (vm_compute; reflexivity); simpl; lia.
Defined.

(** C1 as stated fails: with two videos, one pass, one pair per example
    and the two buckets [[0], [1]], the fresh generation returns four
    samples, two for each of the differences 0 and 1, not
    [2 * 1 * 1 = 2]. *)
Lemma fresh_generation_shape_counterexample :
  (get_paired_data "p" "d" "plots" "f.npy" [[0]; [1]] 1 1 1 false example_world).1
  = Ok (example_generated_X, example_generated_y)
  ∧ (load_data "p" "d" "f.npy" example_world).1 = Ok example_data
  ∧ shape example_data = [2; 3; 1; 2]%nat
  ∧ shape example_generated_X = [4; 2; 1; 1; 2]%nat
  ∧ shape example_generated_y = [4]%nat
  ∧ shape example_generated_X ≠ [2 * 1 * 1; 2; 1; 1; 2]%nat
  ∧ shape example_generated_y ≠ [2 * 1 * 1]%nat.
Proof.
  split; [vm_compute; reflexivity|].
  split; [vm_compute; reflexivity|].
  repeat split; try reflexivity; vm_compute; discriminate.
Qed.

Lemma fresh_generation_shapes_witness :
  ∃ X y w',
    get_paired_data "p" "d" "plots" "f.npy" [[0]; [1]] 1 1 1 false example_world
    = (Ok (X, y), w')
    ∧ shape X = [(2 * Z.to_nat 1 * Z.to_nat (1 + 1) * Z.to_nat 1)%nat; 2%nat;
                 Z.to_nat 1; 1%nat; 2%nat]
    ∧ shape y = [(2 * Z.to_nat 1 * Z.to_nat (1 + 1) * Z.to_nat 1)%nat].
Proof.
  apply (fresh_generation_shapes "p" "d" "plots" "f.npy" [[0]; [1]] 1 1 1 false
           example_world example_data 2 3 1 2 1);
    try reflexivity; try lia.
  - intros d Hd. exists [d]. split; [|by left].
    assert (d = 0 ∨ d = 1) as [-> | ->] by lia; [left|right; left].
  - right; left. reflexivity.
Defined.

(** A pair is its first component next to its second one. *)
Lemma pair_fst_eq {A B : Type} (p : A * B) (a : A) : p.1 = a → p = (a, p.2).
Proof. destruct p. by intros <-. Qed.

Lemma sampling_deterministic_witness :
  let call := get_samples_at_difference example_data 1 example_differences_dict 1 1
                example_time_buckets_dict in
  (call example_world).1 = (call example_world_other).1
  ∧ (is_Some (example_differences_dict !! 1) →
     rng (call example_world).2 = rng (call example_world_other).2)
  ∧ (draw_idx_pairs [(0, 1); (1, 2)] 1 example_world).1
    = (draw_idx_pairs [(3, 7); (4, 8)] 1 example_world_other).1.
Proof.
  apply (sampling_deterministic example_data 1 example_differences_dict 1 1
           example_time_buckets_dict [(0, 1); (1, 2)] [(3, 7); (4, 8)]
           example_world example_world_other).
  reflexivity.
Defined.

Lemma samples_are_stacks_witness :
  ∃ candidates idx_pairs rows,
    example_differences_dict !! 1 = Some candidates
    ∧ (draw_idx_pairs candidates 1 example_world).1 = Ok idx_pairs
    ∧ nd_rows example_data = Ok rows
    ∧ ∀ (r j : nat) (row : ndarray) (idx_pair : nat),
        rows !! r = Some row → idx_pairs !! j = Some idx_pair →
        let k := (r * length idx_pairs + j)%nat in
        ∃ (last1 last2 bucket : Z) (stack1 stack2 : ndarray),
          candidates !! idx_pair = Some (last1, last2)
          ∧ nd_take row (seqZ (last1 - 1 + 1) 1) = Ok stack1
          ∧ nd_take row (seqZ (last2 - 1 + 1) 1) = Ok stack2
          ∧ nd_row (nd_row example_samples_X k) 0 = stack1
          ∧ nd_row (nd_row example_samples_X k) 1 = stack2
          ∧ shape stack1 !! 0%nat = Some (Z.to_nat 1)
          ∧ shape stack2 !! 0%nat = Some (Z.to_nat 1)
          ∧ example_time_buckets_dict !! 1 = Some bucket
          ∧ flat example_samples_y !! k = Some bucket.
Proof.
  apply (samples_are_stacks example_data 1 example_differences_dict 1 1
           example_time_buckets_dict example_world
           (get_samples_at_difference example_data 1 example_differences_dict 1 1
              example_time_buckets_dict example_world).2
           example_samples_X example_samples_y).
  - reflexivity.
  - apply pair_fst_eq. vm_compute. reflexivity.
Defined.

Lemma cache_round_trip_witness :
  let w' := (get_paired_data "p" "d" "plots" "f.npy" [[0]; [1]] 1 1 1 false
               example_world).2 in
  load_object (cache_paths "p" "d" "f.npy").1 w' = (Ok example_generated_X, w')
  ∧ load_object (cache_paths "p" "d" "f.npy").2 w' = (Ok example_generated_y, w')
  ∧ get_paired_data "p" "d" "plots" "f.npy" [[0]; [1]] 1 1 1 false w'
    = (Ok (example_generated_X, example_generated_y), w').
Proof.
  apply (cache_round_trip "p" "d" "plots" "f.npy" [[0]; [1]] 1 1 1 false
           example_world).
  - right; left. vm_compute. reflexivity.
  - apply pair_fst_eq. vm_compute. reflexivity.
Defined.

(** * Further properties of the code *)

(** ** The two tables *)

(** X1: the bucket table sends a time difference to the position of the
    last bucket that lists it, so a later bucket overrides an earlier one
    on a shared difference, and a difference of no bucket is not a key. *)
Theorem time_buckets_dict_last_wins (time_buckets : list (list Z)) (t b : Z) :
  get_time_buckets_dict time_buckets !! t = Some b
  ↔ ∃ (i : nat) (bucket : list Z),
      b = Z.of_nat i ∧ time_buckets !! i = Some bucket ∧ t ∈ bucket
      ∧ ∀ (j : nat) (bucket' : list Z),
          (i < j)%nat → time_buckets !! j = Some bucket' → t ∉ bucket'.
Proof.
  rewrite get_time_buckets_dict_lookup. split.
  - destruct (last_bucket time_buckets t) as [i|] eqn:Hlast; [|done].
    intros [= <-]. destruct (last_bucket_Some _ _ _ Hlast) as [(bucket & Hi & Ht) Hafter].
    by exists i, bucket.
  - intros (i & bucket & -> & Hi & Ht & Hafter).
    assert (Hsome : is_Some (last_bucket time_buckets t)).
    { apply last_bucket_is_Some. exists bucket.
      split; [by eapply list_elem_of_lookup_2|done]. }
    destruct Hsome as [i' Hlast]. rewrite Hlast. simpl. do 2 f_equal.
    destruct (last_bucket_Some _ _ _ Hlast) as [(bucket' & Hi' & Ht') Hafter'].
    destruct (Nat.lt_trichotomy i' i) as [Hlt|[Heq|Hgt]]; [|done|].
    + by destruct (Hafter' i bucket Hlt Hi).
    + by destruct (Hafter i' bucket' Hgt Hi').
Qed.

(** X2: the candidate table has a key for a difference [d] exactly when
    [0 ≤ d ≤ max_frame_diff] and [d ≤ num_total_frames - num_frames_in_stack],
    and no key holds an empty list: a difference that leaves no room for
    two stacks is missing from the table, not mapped to [[]]. *)
Theorem frame_differences_keys (num_total_frames max_frame_diff num_frames_in_stack d : Z) :
  ∃ differences_dict,
    get_frame_differences_dict num_total_frames (NpInt max_frame_diff)
      num_frames_in_stack = Ok differences_dict
    ∧ (is_Some (differences_dict !! d)
       ↔ 0 ≤ d ≤ max_frame_diff ∧ d ≤ num_total_frames - num_frames_in_stack)
    ∧ differences_dict !! d ≠ Some [].
Proof.
  destruct (get_frame_differences_dict_lookup num_total_frames max_frame_diff
              num_frames_in_stack d) as (dd & Hdd & Hlook).
  exists dd. split; [done|]. rewrite Hlook. case_decide as Hd.
  - split; [split; [lia|by eexists]|].
    rewrite candidate_run_cons by lia. done.
  - split; [|done]. split; [by intros [? ?]|lia].
Qed.

(** X3: the list that the candidate table holds for a difference [diff]
    is exactly the pairs [(start_frame, end_frame)] with
    [end_frame - start_frame = diff] whose stacks fit in the video
    ([num_frames_in_stack - 1 ≤ start_frame] and
    [end_frame ≤ num_total_frames - 1]), each listed once; there are
    [num_total_frames - num_frames_in_stack + 1 - diff] of them. *)
Theorem frame_differences_entries
  (num_total_frames max_frame_diff num_frames_in_stack : Z) :
  ∃ differences_dict,
    get_frame_differences_dict num_total_frames (NpInt max_frame_diff)
      num_frames_in_stack = Ok differences_dict
    ∧ ∀ (diff : Z) (pairs : list (Z * Z)),
        differences_dict !! diff = Some pairs →
        NoDup pairs
        ∧ Z.of_nat (length pairs) = num_total_frames - num_frames_in_stack + 1 - diff
        ∧ ∀ start_frame end_frame,
            (start_frame, end_frame) ∈ pairs
            ↔ num_frames_in_stack - 1 ≤ start_frame
              ∧ end_frame ≤ num_total_frames - 1
              ∧ end_frame - start_frame = diff.
Proof.
  destruct (get_frame_differences_dict_lookup num_total_frames max_frame_diff
              num_frames_in_stack 0) as (dd & Hdd & _).
  exists dd. split; [done|]. intros diff pairs Hpairs.
  destruct (get_frame_differences_dict_lookup num_total_frames max_frame_diff
              num_frames_in_stack diff) as (dd' & Hdd' & Hlook).
  rewrite Hdd in Hdd'. injection Hdd' as <-. rewrite Hpairs in Hlook.
  case_decide as Hd; [|done]. injection Hlook as ->. split; [|split].
  - unfold candidate_run. apply NoDup_fmap_2; [|apply NoDup_seqZ].
    intros k1 k2 [= Hk _]. lia.
  - unfold candidate_run. rewrite length_fmap, length_seqZ. lia.
  - intros s e. rewrite elem_of_candidate_run. split.
    + intros (k & Hk & -> & ->). lia.
    + intros (Hs & He & Hdiff). exists (s - (num_frames_in_stack - 1)). lia.
Qed.

(** ** The names of the cache files *)

Lemma py_split_app_sep (sep : ascii) (a b : string) :
  py_split sep (a +:+ String sep b) = py_split sep a ++ py_split sep b.
Proof.
  induction a as [|c a IH].
  - rewrite string_app_nil_l. cbn [py_split]. by rewrite decide_True.
  - rewrite string_app_cons. cbn [py_split]. rewrite IH.
    case_decide; [done|].
    pose proof (py_split_nonempty sep a) as Hne.
    by destruct (py_split sep a).
Qed.

Lemma py_split_no_sep_singleton (sep : ascii) (s : string) :
  contains sep s = false → py_split sep s = [s].
Proof.
  induction s as [|c s IH]; [done|]. cbn [contains py_split].
  intros [Hc Hs]%orb_false_elim. apply bool_decide_eq_false in Hc.
  rewrite decide_False by done. by rewrite IH.
Qed.

Lemma strip_extension_last (name ext : string) :
  contains "." ext = false → strip_extension (name +:+ "." +:+ ext) = name.
Proof.
  intros Hext. unfold strip_extension.
  change (name +:+ "." +:+ ext) with (name +:+ String "." ext).
  rewrite py_split_app_sep, (py_split_no_sep_singleton _ ext Hext).
  rewrite removelast_last. apply py_join_split.
Qed.

(** X4: only what follows the last dot of the file name is dropped, so
    the cache paths do not see the extension: two data files whose names
    differ in the extension alone share their two cache files. *)
Theorem cache_paths_ignore_extension (project_dir data_dir name ext ext' : string) :
  contains "." ext = false → contains "." ext' = false →
  strip_extension (name +:+ "." +:+ ext) = name
  ∧ cache_paths project_dir data_dir (name +:+ "." +:+ ext)
    = cache_paths project_dir data_dir (name +:+ "." +:+ ext').
Proof.
  intros Hext Hext'. split; [by apply strip_extension_last|].
  unfold cache_paths. by rewrite !strip_extension_last.
Qed.

Lemma cache_paths_ignore_extension_witness :
  strip_extension ("a.tar" +:+ "." +:+ "npy") = "a.tar"%string
  ∧ cache_paths "p" "d" ("a.tar" +:+ "." +:+ "npy")
    = cache_paths "p" "d" ("a.tar" +:+ "." +:+ "npz").
Proof. apply (cache_paths_ignore_extension "p" "d" "a.tar" "npy" "npz"); reflexivity. Defined.

(** X5: a file name without a dot is stripped to the empty name, so the
    cache files of every such data set are the same two files, [_X.pkl]
    and [_y.pkl] of the data directory. *)
Theorem cache_paths_without_extension (project_dir data_dir filename filename' : string) :
  contains "." filename = false → contains "." filename' = false →
  strip_extension filename = EmptyString
  ∧ cache_paths project_dir data_dir filename
    = (os_path_join project_dir [data_dir; "_X.pkl"%string],
       os_path_join project_dir [data_dir; "_y.pkl"%string])
  ∧ cache_paths project_dir data_dir filename
    = cache_paths project_dir data_dir filename'.
Proof.
  intros Hf Hf'.
  assert (Hstrip : ∀ f, contains "." f = false → strip_extension f = EmptyString).
  { intros f Hno. unfold strip_extension.
    by rewrite (py_split_no_sep_singleton _ f Hno). }
  split; [by apply Hstrip|]. unfold cache_paths.
  by rewrite (Hstrip _ Hf), (Hstrip _ Hf').
Qed.

Lemma cache_paths_without_extension_witness :
  strip_extension "cifar10" = EmptyString
  ∧ cache_paths "p" "data" "cifar10"
    = (os_path_join "p" ["data"%string; "_X.pkl"%string],
       os_path_join "p" ["data"%string; "_y.pkl"%string])
  ∧ cache_paths "p" "data" "cifar10" = cache_paths "p" "data" "mnist".
Proof. apply (cache_paths_without_extension "p" "data" "cifar10" "mnist"); reflexivity. Defined.

(** ** What a call of [get_paired_data] writes *)

Section WriteProperties.
Context `{NumpyRandom}.




End WriteProperties.

(** ** Edge cases of the generation *)

Section EdgeProperties.
Context `{NumpyRandom}.

Lemma fresh_is_miss (force : bool) (w : world) (X_path y_path : string) :
  force = true ∨ files w !! X_path = None ∨ files w !! y_path = None →
  negb force && bool_decide (is_Some (files w !! X_path))
  && bool_decide (is_Some (files w !! y_path)) = false.
Proof.
  intros [->|[Hnone|Hnone]]; [done| |]; rewrite Hnone;
    rewrite (bool_decide_eq_false_2 (is_Some None)) by (by intros [? ?]);
    by rewrite ?andb_false_r.
Qed.

(** X8: an empty bucket among the time buckets turns the maximal
    difference into a float, so a call that passes the assertion and
    finds no cache to return raises [TypeError] at the first [range] over
    the differences, before any sample is drawn. *)
Theorem empty_bucket_raises_TypeError project_dir data_dir plots_dir filename
  (time_buckets : list (list Z)) (num_passes_for_generation num_pairs_per_example : Z)
  (num_frames_in_stack : Z) (force : bool) (w : world) (data : ndarray)
  (num_total_frames : nat) (max_frame_diff : np_num) :
  (load_data project_dir data_dir filename w).1 = Ok data →
  shape data !! 1%nat = Some num_total_frames →
  [] ∈ time_buckets →
  hstack_max time_buckets = Ok max_frame_diff →
  np_val max_frame_diff ≤ Z.of_nat num_total_frames - num_frames_in_stack →
  force = true
  ∨ files w !! (cache_paths project_dir data_dir filename).1 = None
  ∨ files w !! (cache_paths project_dir data_dir filename).2 = None →
  get_paired_data project_dir data_dir plots_dir filename time_buckets
    num_passes_for_generation num_pairs_per_example num_frames_in_stack force w
  = (Raise TypeError, w).
Proof.
  intros Hload Hn Hempty Hmax Hle Hfresh.
  rewrite (get_paired_data_eq _ _ _ _ _ _ _ _ _ _ _ _ _ Hload Hn Hmax).
  rewrite bool_decide_eq_true_2 by done.
  destruct (cache_paths project_dir data_dir filename) as [X_path y_path].
  cbn [fst snd] in Hfresh. rewrite (fresh_is_miss _ _ _ _ Hfresh).
  assert (Hfloat : ∃ m, max_frame_diff = NpFloat m).
  { unfold hstack_max in Hmax. destruct (mjoin time_buckets) as [|t ts]; [done|].
    assert (Hex : existsb (λ bucket, bool_decide (bucket = [])) time_buckets = true).
    { apply existsb_exists. exists []. split; [by apply list_elem_of_In|].
      by apply bool_decide_eq_true_2. }
    rewrite Hex in Hmax. injection Hmax as <-. by eexists. }
  destruct Hfloat as [m ->]. reflexivity.
Qed.

(** X9: with [num_passes_for_generation ≤ 0] a fresh generation draws
    nothing: it returns two empty arrays of shape [(0,)], not of shape
    [(0, 2, stack_len, H, W)], and writes them to the two cache files. *)
Theorem no_pass_returns_empty_arrays project_dir data_dir plots_dir filename
  (time_buckets : list (list Z)) (num_passes_for_generation num_pairs_per_example : Z)
  (num_frames_in_stack : Z) (force : bool) (w : world) (data : ndarray)
  (num_total_frames : nat) (max_frame_diff : Z) :
  (load_data project_dir data_dir filename w).1 = Ok data →
  shape data !! 1%nat = Some num_total_frames →
  hstack_max time_buckets = Ok (NpInt max_frame_diff) →
  max_frame_diff ≤ Z.of_nat num_total_frames - num_frames_in_stack →
  force = true
  ∨ files w !! (cache_paths project_dir data_dir filename).1 = None
  ∨ files w !! (cache_paths project_dir data_dir filename).2 = None →
  num_passes_for_generation ≤ 0 →
  get_paired_data project_dir data_dir plots_dir filename time_buckets
    num_passes_for_generation num_pairs_per_example num_frames_in_stack force w
  = (Ok (np_empty, np_empty),
     World (<[(cache_paths project_dir data_dir filename).2 := np_empty]>
              (<[(cache_paths project_dir data_dir filename).1 := np_empty]> (files w)))
           (rng w)).
Proof.
  intros Hload Hn Hmax Hle Hfresh Hpasses.
  rewrite (get_paired_data_eq _ _ _ _ _ _ _ _ _ _ _ _ _ Hload Hn Hmax).
  cbn [np_val]. rewrite bool_decide_eq_true_2 by done.
  destruct (cache_paths project_dir data_dir filename) as [X_path y_path].
  cbn [fst snd] in *. rewrite (fresh_is_miss _ _ _ _ Hfresh).
  unfold generate_pairs.
  destruct (get_frame_differences_dict_lookup (Z.of_nat num_total_frames) max_frame_diff
              num_frames_in_stack 0) as (dd & -> & _).
  rewrite M_bind_lift_Ok. unfold py_range. by rewrite seqZ_nil by lia.
Qed.

Lemma M_bind_Raise {A B : Type} (m : M A) (f : A → M B) (w w' : world) (e : exn) :
  m w = (Raise e, w') → (m ≫= f) w = (Raise e, w').
Proof. intros Hm. unfold_M. by rewrite Hm. Qed.

(** A loop in [M] that keeps an invariant until its body raises [e], and
    whose body does raise [e] on one of the items, raises [e]. *)
Lemma for_eachM_raises {A S : Type} (P : nat → S → world → Prop) (l : list A)
  (body : S → A → M S) (s : S) (w : world) (e : exn) :
  P 0%nat s w →
  (∀ i x s w, l !! i = Some x → P i s w →
     (∃ s' w', body s x w = (Ok s', w') ∧ P (Datatypes.S i) s' w')
     ∨ (∃ w', body s x w = (Raise e, w'))) →
  (∃ i x, l !! i = Some x ∧ ∀ s w, P i s w → ∃ w', body s x w = (Raise e, w')) →
  ∃ w', for_eachM l body s w = (Raise e, w').
Proof.
  revert P s w. induction l as [|x l IH]; intros P s w H0 Hstep (i0 & x0 & Hi0 & Hraise).
  - done.
  - cbn [for_eachM].
    destruct (Hstep 0%nat x s w eq_refl H0) as [(s1 & w1 & Hb & H1)|[w1 Hb]].
    + rewrite (M_bind_Ok _ _ _ _ _ Hb).
      apply (IH (λ i, P (Datatypes.S i))); [done| |].
      * intros i y t u Hi. apply (Hstep (Datatypes.S i)). done.
      * destruct i0 as [|i1].
        -- injection Hi0 as <-. destruct (Hraise s w H0) as [w2 Hb2]. congruence.
        -- by exists i1, x0.
    + exists w1. by apply M_bind_Raise.
Qed.

(** The sampler on a difference of no bucket: with at least one video
    and one pair to draw, the first sample already raises [KeyError]. *)
Lemma get_samples_at_difference_no_bucket (data : ndarray) (nv ntf : nat)
  (fs : list nat) (difference : Z) (dd : gmap Z (list (Z * Z)))
  (candidates : list (Z * Z)) (pairs stack : Z) (tbd : gmap Z Z) (w : world) :
  shape data = nv :: ntf :: fs → (0 < nv)%nat →
  dd !! difference = Some candidates →
  candidates ≠ [] →
  Forall (λ p, stack - 1 ≤ p.1 ≤ Z.of_nat ntf - 1 ∧ stack - 1 ≤ p.2 ≤ Z.of_nat ntf - 1)
         candidates →
  tbd !! difference = None →
  1 ≤ pairs →
  ∃ w', get_samples_at_difference data difference dd pairs stack tbd w
        = (Raise KeyError, w').
Proof.
  intros Hshape Hnv Hdd Hne Hcands Hb Hpairs.
  rewrite get_samples_at_difference_eq, Hdd, draw_idx_pairs_eq.
  rewrite decide_False by (by destruct candidates).
  rewrite decide_False by lia. cbv zeta.
  pose proof (np_choice_length (length candidates) (Z.to_nat pairs) (np_seed 1337))
    as Hlen.
  pose proof (np_choice_bound (length candidates) (Z.to_nat pairs) (np_seed 1337))
    as Hbound.
  destruct (np_choice _ _ _) as [idx_pairs g]. cbn [fst snd] in *.
  eexists. f_equal.
  destruct idx_pairs as [|i0 idx_pairs]; [simpl in Hlen; lia|].
  assert (Hi0 : (i0 < length candidates)%nat).
  { eapply Forall_inv in Hbound; [done|]. destruct candidates; [done|simpl; lia]. }
  unfold build_samples.
  destruct (nd_rows_spec data nv (ntf :: fs) Hshape) as (-> & _ & Hrows).
  destruct nv as [|nv]; [lia|]. cbn [seq fmap list_fmap]. unfold_bind.
  rewrite collect_samples_eq. cbn [mapM]. unfold_bind.
  destruct (lookup_lt_is_Some_2 candidates i0 Hi0) as [[last1 last2] Hc].
  rewrite Forall_forall in Hcands.
  destruct (Hcands _ (list_elem_of_lookup_2 _ _ _ Hc)) as [H1 H2]. simpl in H1, H2.
  assert (Hrs : shape (nd_row data 0) = ntf :: fs).
  { apply (Hrows (nd_row data 0)). cbn [seq fmap list_fmap]. left. }
  destruct (nd_take_ok (nd_row data 0) ntf fs (stack_frames last1 stack) Hrs)
    as (s1 & Hs1 & _).
  { rewrite stack_frames_run. apply Forall_forall. intros i Hi%elem_of_seqZ. lia. }
  destruct (nd_take_ok (nd_row data 0) ntf fs (stack_frames last2 stack) Hrs)
    as (s2 & Hs2 & _).
  { rewrite stack_frames_run. apply Forall_forall. intros i Hi%elem_of_seqZ. lia. }
  unfold make_sample at 1, list_get, dict_get. unfold_bind.
  by rewrite Hc, Hs1, Hs2, Hb.
Qed.

(** X10: when the buckets leave a gap below the maximal difference, a
    fresh generation under an otherwise valid configuration, with at
    least one video, pass and pair per example, raises [KeyError]: the
    label of a difference of no bucket cannot be looked up. *)
Theorem bucket_gap_raises_KeyError project_dir data_dir plots_dir filename
  (time_buckets : list (list Z)) (num_passes_for_generation num_pairs_per_example : Z)
  (num_frames_in_stack : Z) (force : bool) (w : world) (data : ndarray)
  (num_videos num_total_frames : nat) (frame_shape : list nat)
  (max_frame_diff gap : Z) :
  (load_data project_dir data_dir filename w).1 = Ok data →
  shape data = num_videos :: num_total_frames :: frame_shape →
  hstack_max time_buckets = Ok (NpInt max_frame_diff) →
  max_frame_diff ≤ Z.of_nat num_total_frames - num_frames_in_stack →
  0 ≤ gap ≤ max_frame_diff →
  (∀ bucket, bucket ∈ time_buckets → gap ∉ bucket) →
  force = true
  ∨ files w !! (cache_paths project_dir data_dir filename).1 = None
  ∨ files w !! (cache_paths project_dir data_dir filename).2 = None →
  1 ≤ num_passes_for_generation → 1 ≤ num_pairs_per_example →
  1 ≤ num_frames_in_stack → (0 < num_videos)%nat →
  (get_paired_data project_dir data_dir plots_dir filename time_buckets
     num_passes_for_generation num_pairs_per_example num_frames_in_stack force w).1
  = Raise KeyError.
Proof.
  intros Hload Hshape Hmax Hmfd Hgap Hnone Hfresh Hpasses Hpairs Hstack Hnv.
  assert (Hn : shape data !! 1%nat = Some num_total_frames) by by rewrite Hshape.
  rewrite (get_paired_data_eq _ _ _ _ _ _ _ _ _ _ _ _ _ Hload Hn Hmax).
  cbn [np_val]. rewrite bool_decide_eq_true_2 by done.
  destruct (cache_paths project_dir data_dir filename) as [X_path y_path].
  cbn [fst snd] in Hfresh. rewrite (fresh_is_miss _ _ _ _ Hfresh).
  enough (Hgen : ∃ w', generate_pairs data time_buckets (Z.of_nat num_total_frames)
                         (NpInt max_frame_diff) num_passes_for_generation
                         num_pairs_per_example num_frames_in_stack w
                       = (Raise KeyError, w')) by (destruct Hgen as [w' ->]; done).
  set (tbd := get_time_buckets_dict time_buckets).
  set (n1 := (num_videos * Z.to_nat num_pairs_per_example)%nat).
  assert (Hn1 : (0 < n1)%nat) by (unfold n1; nia).
  set (inv := λ (_ : nat) (acc : ndarray * ndarray) (_ : world),
         acc.1 = np_empty
         ∨ ∃ m, shape acc.1 = m :: 2%nat :: Z.to_nat num_frames_in_stack :: frame_shape).
  unfold generate_pairs. fold tbd.
  assert (Hdd : ∃ dd, get_frame_differences_dict (Z.of_nat num_total_frames)
                        (NpInt max_frame_diff) num_frames_in_stack = Ok dd
            ∧ ∀ d, 0 ≤ d ≤ max_frame_diff →
                dd !! d = Some (candidate_run (Z.of_nat num_total_frames)
                                  (num_frames_in_stack - 1) (num_frames_in_stack - 1 + d))).
  { destruct (get_frame_differences_dict_lookup (Z.of_nat num_total_frames)
                max_frame_diff num_frames_in_stack 0) as (dd & Hdd & _).
    exists dd. split; [done|]. intros d Hd.
    destruct (get_frame_differences_dict_lookup (Z.of_nat num_total_frames)
                max_frame_diff num_frames_in_stack d) as (dd' & Hdd' & Hlook).
    rewrite Hdd in Hdd'. injection Hdd' as <-.
    by rewrite Hlook, decide_True by lia. }
  destruct Hdd as (dd & -> & Hlook). rewrite M_bind_lift_Ok.
  unfold py_range. rewrite (seqZ_cons 0 num_passes_for_generation) by lia.
  cbn [for_eachM].
  enough (Hpass : ∃ w', (lift (np_range (np_succ (NpInt max_frame_diff))) ≫=
            (λ differences, for_eachM differences (λ '(X, y) difference,
               '(video_pairs, targets) ← get_samples_at_difference data difference dd
                                           num_pairs_per_example num_frames_in_stack tbd;
               X ← lift (if decide (nd_size X = 0%nat) then Ok video_pairs
                         else np_vstack X video_pairs);
               mret (X, np_append y targets)) (np_empty, np_empty))) w
            = (Raise KeyError, w')).
  { destruct Hpass as [w' Hpass]. exists w'. by apply M_bind_Raise. }
  change (np_range (np_succ (NpInt max_frame_diff)))
    with (Ok (py_range (max_frame_diff + 1))).
  rewrite M_bind_lift_Ok.
  assert (Hmiss : tbd !! gap = None).
  { unfold tbd. rewrite get_time_buckets_dict_lookup.
    destruct (last_bucket time_buckets gap) as [i|] eqn:Hlast; [|done].
    destruct (last_bucket_Some _ _ _ Hlast) as [(bucket & Hi & Ht) _].
    destruct (Hnone bucket); [by eapply list_elem_of_lookup_2|done]. }
  assert (Hraise : ∀ d w1, 0 ≤ d ≤ max_frame_diff → tbd !! d = None →
            ∃ w', get_samples_at_difference data d dd num_pairs_per_example
                    num_frames_in_stack tbd w1 = (Raise KeyError, w')).
  { intros d w1 Hd Hd_none.
    destruct (candidates_fit (Z.of_nat num_total_frames) max_frame_diff
                num_frames_in_stack d Hstack Hmfd Hd) as [Hne Hfit].
    exact (get_samples_at_difference_no_bucket data num_videos num_total_frames
             frame_shape d dd _ num_pairs_per_example num_frames_in_stack tbd w1
             Hshape Hnv (Hlook d Hd) Hne Hfit Hd_none Hpairs). }
  apply (for_eachM_raises inv); [by left| |].
  - intros j d [X1 y1] w1 Hj Hacc. unfold inv in Hacc |- *. cbn [fst] in Hacc.
    unfold py_range in Hj. apply lookup_seqZ in Hj as [-> Hj]. rewrite Z.add_0_l.
    assert (Hd : 0 ≤ Z.of_nat j ≤ max_frame_diff) by lia.
    destruct (tbd !! Z.of_nat j) as [bucket|] eqn:Hbucket.
    + left.
      destruct (candidates_fit (Z.of_nat num_total_frames) max_frame_diff
                  num_frames_in_stack _ Hstack Hmfd Hd) as [Hne Hfit].
      destruct (get_samples_at_difference_ok data num_videos num_total_frames
                  frame_shape _ dd _ num_pairs_per_example num_frames_in_stack bucket
                  tbd w1 Hshape (Hlook _ Hd) Hne Hfit Hbucket ltac:(lia))
        as (V & t & w2 & Hcall & _ & HV).
      fold n1 in HV. specialize (HV Hn1). rewrite (M_bind_Ok _ _ _ _ _ Hcall).
      destruct (decide (nd_size X1 = 0%nat)) as [Hsize|Hsize].
      * rewrite M_bind_lift_Ok. eexists _, _. split; [reflexivity|].
        right. by eexists.
      * destruct Hacc as [->|[m HX1]]; [done|].
        destruct (np_vstack_samples X1 V _ _ _ _ _ HX1 HV) as (X' & -> & HX').
        rewrite M_bind_lift_Ok. eexists _, _. split; [reflexivity|].
        right. by eexists.
    + right. destruct (Hraise _ w1 Hd Hbucket) as [w2 Hcall].
      exists w2. by apply M_bind_Raise.
  - exists (Z.to_nat gap), gap. split.
    + unfold py_range. apply lookup_seqZ. lia.
    + intros [X1 y1] w1 _. destruct (Hraise gap w1 Hgap Hmiss) as [w2 Hcall].
      exists w2. by apply M_bind_Raise.
Qed.

End EdgeProperties.

Section SamplerEdgeProperties.
Context `{NumpyRandom}.

(** X11: asked for zero pairs per example, the sampler returns two empty
    arrays of shape [(0,)], whatever the data, the stack length and the
    bucket table are: no frame is read and the bucket of the difference
    is not looked up. The generator is reseeded all the same. *)
Theorem zero_pairs_returns_empty_arrays (data : ndarray) (difference : Z)
  (differences_dict : gmap Z (list (Z * Z))) (candidates : list (Z * Z))
  (num_frames_in_stack : Z) (time_buckets_dict : gmap Z Z) (w : world) :
  shape data ≠ [] →
  differences_dict !! difference = Some candidates →
  candidates ≠ [] →
  get_samples_at_difference data difference differences_dict 0 num_frames_in_stack
    time_buckets_dict w
  = (Ok (np_empty, np_empty),
     World (files w) (np_choice (length candidates) 0 (np_seed 1337)).2).
Proof.
  intros Hshape Hdd Hne.
  rewrite get_samples_at_difference_eq, Hdd, draw_idx_pairs_eq.
  rewrite decide_False by (by destruct candidates).
  rewrite decide_False by lia. cbv zeta. change (Z.to_nat 0) with 0%nat.
  pose proof (np_choice_length (length candidates) 0 (np_seed 1337)) as Hlen.
  destruct (np_choice _ _ _) as [idx_pairs g]. cbn [fst snd] in *.
  apply nil_length_inv in Hlen as ->. f_equal.
  unfold build_samples, nd_rows. destruct (shape data) as [|n s]; [done|].
  unfold_bind.
  destruct (collect_samples_ok (nd_row data <$> seq 0 n) [] candidates difference
              num_frames_in_stack time_buckets_dict) as (v & ys & Hcollect).
  { by intros row ip _ ?%elem_of_nil. }
  rewrite Hcollect.
  destruct (collect_samples_spec _ _ _ _ _ _ _ _ Hcollect) as (Hv & Hy & _).
  rewrite Nat.mul_0_r in Hv, Hy.
  apply nil_length_inv in Hv as ->. apply nil_length_inv in Hy as ->. done.
Qed.

(** X12: the entry script calls [get_paired_data] with the configured
    buckets, which reach a difference of 19, and with the default stack
    length 2, so the call stops at the assertion exactly when the videos
    of the data set have fewer than 21 frames. *)
Theorem main_asserts_iff_short_videos (PROJECT_DIR DATASET : string) (w : world)
  (data : ndarray) (num_total_frames : nat) :
  (load_data PROJECT_DIR DATA_DIR DATASET w).1 = Ok data →
  shape data !! 1%nat = Some num_total_frames →
  (main_get_paired_data PROJECT_DIR DATASET w).1 = Raise AssertionError
  ↔ (num_total_frames < 21)%nat.
Proof.
  intros Hload Hn. unfold main_get_paired_data.
  rewrite (get_paired_data_eq _ _ _ _ _ _ _ _ _ _ _ _ _ Hload Hn TIME_BUCKETS_max).
  cbn [np_val]. case_bool_decide as Hle; [|split; [lia|done]].
  split; [|lia]. intros Hraise. exfalso. revert Hraise.
  destruct (cache_paths PROJECT_DIR DATA_DIR DATASET) as [X_path y_path].
  destruct (negb false && _ && _).
  - destruct (files w !! X_path), (files w !! y_path); done.
  - pose proof (no_assert_generate_pairs data TIME_BUCKETS (Z.of_nat num_total_frames)
                  (NpInt 19) NUM_ROWS NUM_VIDEOS_PER_ROW 2 w) as Hgen.
    destruct (generate_pairs _ _ _ _ _ _ _ w) as [[[X y]|e] w']; [done|].
    simpl. intros [= ->]. by apply Hgen.
Qed.

End SamplerEdgeProperties.

(** ** Loading the data *)

Lemma chunk_chunk (c m : nat) (l : list Z) (j i : nat) :
  (i < m)%nat → chunk c (chunk (m * c) l j) i = chunk c l (j * m + i).
Proof.
  intros Hi. unfold chunk.
  replace (m * c)%nat with (i * c + (m * c - i * c))%nat at 1 by nia.
  rewrite <- take_drop_commute, take_take, drop_drop.
  f_equal; [nia|f_equal; nia].
Qed.

Lemma list_bind_join {A B : Type} (g : A → list B) (l : list A) :
  l ≫= g = mjoin (g <$> l).
Proof.
  induction l as [|x l IH]; [done|].
  rewrite bind_cons, IH. done.
Qed.

(** The blocks of the exchanged array, and the block at a position. *)
Lemma swapaxes_blocks (c n0 n1 : nat) (l : list Z) :
  let blocks := seq 0 n1 ≫= (λ j, (λ i, chunk c l (i * n1 + j)%nat) <$> seq 0 n0) in
  length blocks = (n1 * n0)%nat
  ∧ ∀ i j, (i < n0)%nat → (j < n1)%nat →
      blocks !! (j * n0 + i)%nat = Some (chunk c l (i * n1 + j)).
Proof.
  intros blocks. unfold blocks. rewrite list_bind_join.
  assert (Hlens : Forall (λ b : list (list Z), length b = n0)
            ((λ j, (λ i, chunk c l (i * n1 + j)%nat) <$> seq 0 n0) <$> seq 0 n1)).
  { apply Forall_fmap, Forall_forall. intros j _. simpl.
    by rewrite length_fmap, length_seq. }
  split.
  - rewrite length_join, (sum_list_fmap_same n0) by done.
    by rewrite length_fmap, length_seq.
  - intros i j Hi Hj.
    apply (join_lookup_Some_same_length' n0); [done|done|].
    eexists. split.
    + rewrite list_lookup_fmap, lookup_seq_lt by done. reflexivity.
    + rewrite list_lookup_fmap, lookup_seq_lt by done. reflexivity.
Qed.

Section LoadProperties.
Context `{NumpyRandom}.

(** X13: [load_data] returns the array of the file with its first two
    axes exchanged: for a well-formed file of shape [(n0, n1, ...)] the
    result has shape [(n1, n0, ...)], is well formed, and its item
    [[j][i]] is the item [[i][j]] of the file, so frame [i] of video [j]
    is what the file stores as video [j] of frame [i]. The files and the
    generator are not touched. *)
Theorem load_data_swaps_axes (project_dir data_dir filename : string) (w : world)
  (raw : ndarray) (n0 n1 : nat) (s : list nat) :
  files w !! os_path_join project_dir [data_dir; filename] = Some raw →
  shape raw = n0 :: n1 :: s →
  nd_wf raw →
  ∃ data,
    load_data project_dir data_dir filename w = (Ok data, w)
    ∧ shape data = n1 :: n0 :: s
    ∧ nd_wf data
    ∧ ∀ i j, (i < n0)%nat → (j < n1)%nat →
        nd_row (nd_row data j) i = nd_row (nd_row raw i) j.
Proof.
  intros Hfile Hshape Hwf.
  unfold load_data, np_load. unfold_M. rewrite Hfile.
  unfold swapaxes01. rewrite Hshape. eexists. split; [reflexivity|].
  split; [done|].
  set (c := shape_size s).
  destruct (swapaxes_blocks c n0 n1 (flat raw)) as [Hlen Hat].
  set (blocks := seq 0 n1 ≫= (λ j, (λ i, chunk c (flat raw) (i * n1 + j)%nat) <$> seq 0 n0))
    in *.
  assert (Hraw : length (flat raw) = (n0 * (n1 * c))%nat).
  { unfold nd_wf, nd_size in Hwf. by rewrite Hwf, Hshape, !shape_size_cons. }
  assert (Hfull : Forall (λ b, length b = c) blocks).
  { apply Forall_forall. intros b [k Hk]%list_elem_of_lookup.
    assert (Hklt : (k < n1 * n0)%nat) by (rewrite <- Hlen; by eapply lookup_lt_Some).
    assert (n0 ≠ 0%nat) by nia.
    assert (Hk' : k = (k `div` n0 * n0 + k `mod` n0)%nat)
      by (rewrite Nat.mul_comm; by apply Nat.div_mod).
    assert (Hmod : (k `mod` n0 < n0)%nat) by (by apply Nat.mod_upper_bound).
    assert (Hdiv : (k `div` n0 < n1)%nat) by (apply Nat.Div0.div_lt_upper_bound; nia).
    rewrite Hk' in Hk. rewrite (Hat _ _ Hmod Hdiv) in Hk. injection Hk as <-.
    apply length_chunk. rewrite Hraw. nia. }
  split.
  - unfold nd_wf, nd_size. cbn [flat shape].
    rewrite (length_mjoin_const _ _ Hfull), Hlen, !shape_size_cons. fold c. nia.
  - intros i j Hi Hj. unfold nd_row. cbn [shape flat tail]. rewrite Hshape.
    cbn [tail]. rewrite !shape_size_cons. fold c. f_equal.
    rewrite !chunk_chunk by done.
    apply chunk_mjoin; [done|]. by apply Hat.
Qed.

End LoadProperties.

(** ** The dataset adapter *)

(** X14: for arrays of the shapes that the sampler returns, [X] of shape
    [(N, 2, ...)] and [y] of shape [(N,)], the adapter has [N] items, and
    [dataset[index]] is defined exactly for [-N ≤ index < N]: it is the
    triple [(X[k][0], X[k][1], y[k])] at the position [k = index mod N],
    and [IndexError] for every other index. *)
Theorem dataset_getitem_in_range (X y : ndarray) (N : nat) (s : list nat) (index : Z) :
  shape X = N :: 2%nat :: s →
  shape y = [N] →
  let dataset := {| dataset_X := X; dataset_y := y |} in
  dataset_len dataset = Ok (Z.of_nat N)
  ∧ dataset_getitem dataset index
    = if decide (- Z.of_nat N ≤ index < Z.of_nat N)
      then let k := Z.to_nat (index `mod` Z.of_nat N) in
           Ok (nd_row (nd_row X k) 0, nd_row (nd_row X k) 1, nd_row y k)
      else Raise IndexError.
Proof.
  intros HX Hy dataset. unfold dataset_len, dataset_getitem, dataset.
  cbn [dataset_X dataset_y]. rewrite Hy. split; [done|].
  assert (Hnorm : norm_index N index
            = if decide (- Z.of_nat N ≤ index < Z.of_nat N)
              then Ok (Z.to_nat (index `mod` Z.of_nat N)) else Raise IndexError).
  { unfold norm_index. destruct (decide (0 ≤ index < Z.of_nat N)) as [Hpos|Hpos].
    - rewrite decide_True by lia. by rewrite Z.mod_small.
    - destruct (decide (- Z.of_nat N ≤ index < 0)) as [Hneg|Hneg].
      + rewrite decide_True by lia. do 2 f_equal.
        rewrite <- (Z.mod_add index 1 (Z.of_nat N)) by lia.
        rewrite Z.mod_small; lia.
      + by rewrite decide_False by lia. }
  unfold nd_item. rewrite HX, Hy, Hnorm. unfold_bind.
  case_decide; [|done]. cbv zeta.
  assert (Hrow : shape (nd_row X (Z.to_nat (index `mod` Z.of_nat N))) = 2%nat :: s)
    by (unfold nd_row; by rewrite HX).
  rewrite Hrow.
  change (norm_index 2 0) with (@Ok nat 0%nat).
  change (norm_index 2 1) with (@Ok nat 1%nat). done.
Qed.

(** ** The split sizes at the boundary *)

(** X15: with [test_size = 1.0] no split is ever computed: the quotient
    by [1 - test_size] is a division by zero, so [generate_dataloader]
    raises, for every dataset and every [val_size]. *)
Theorem split_sizes_test_size_one (X y : ndarray) (val_size : float) :
  ∃ e, generate_dataloader_sizes X y 1%float val_size = Raise e
       ∧ (e = ZeroDivisionError ∨ e = TypeError ∨ e = OverflowError ∨ e = ValueError).
Proof.
  unfold generate_dataloader_sizes, dataset_len. cbn [dataset_y]. unfold_bind.
  destruct (shape y) as [|n s]; [by exists TypeError; auto|].
  unfold float_of_int at 1.
  destruct (PrimFloat.is_infinity _); [by exists OverflowError; auto|].
  destruct (int_floor _) as [nt|e] eqn:Hfloor.
  2:{ exists e. split; [done|]. unfold int_floor in Hfloor.
      destruct (Prim2SF _); try done; injection Hfloor as <-; auto. }
  unfold float_of_int.
  destruct (PrimFloat.is_infinity _); [by exists OverflowError; auto|].
  exists ZeroDivisionError. split; [|by left]. reflexivity.
Qed.

(** ** The passes of a fresh generation *)

Section PassProperties.
Context `{NumpyRandom}.

Lemma get_samples_at_difference_result data difference (dd : gmap Z (list (Z * Z)))
  (k stack : Z) (tbd : gmap Z Z) (w : world) :
  (get_samples_at_difference data difference dd k stack tbd w).1
  = sample_block data dd k stack tbd difference.
Proof.
  rewrite get_samples_at_difference_eq. unfold sample_block.
  destruct (dd !! difference) as [candidates|]; [|done].
  rewrite draw_idx_pairs_eq. repeat case_decide; done.
Qed.

(** A loop in [M] whose body returns what a function of the state and
    the item says returns what the loop of that function does. *)
Lemma for_eachM_pure {A S : Type} (l : list A) (body : S → A → M S)
  (pure : S → A → result S) (s : S) (w : world) :
  (∀ s x w, (body s x w).1 = pure s x) →
  (for_eachM l body s w).1 = for_each l pure s.
Proof.
  intros Hbody. revert s w. induction l as [|x l IH]; intros s w; [done|].
  cbn [for_eachM for_each]. unfold_M. unfold_bind. rewrite <- (Hbody s x w).
  destruct (body s x w) as [[s'|e] w']; [apply IH|done].
Qed.

(** The arrays of a generation do not depend on the world it starts in. *)
Lemma generate_pairs_pure_eq data time_buckets ntf mfd passes pairs stack (w : world) :
  (generate_pairs data time_buckets ntf mfd passes pairs stack w).1
  = generate_pairs_pure data time_buckets ntf mfd passes pairs stack.
Proof.
  unfold generate_pairs, generate_pairs_pure. unfold_M.
  destruct (get_frame_differences_dict ntf mfd stack) as [dd|e]; [|done].
  cbn [mbind result_bind]. apply for_eachM_pure. intros acc i w1.
  destruct (np_range (np_succ mfd)) as [differences|e]; [|done].
  cbn [mbind result_bind]. apply for_eachM_pure. intros [X y] difference w2.
  rewrite <- (get_samples_at_difference_result data difference dd pairs stack
                (get_time_buckets_dict time_buckets) w2).
  unfold accumulate. cbn [fst snd].
  destruct (get_samples_at_difference _ _ _ _ _ _ w2) as [[[V t]|e] w3]; [|done].
  cbn [fst snd mbind result_bind].
  destruct (if decide (nd_size X = 0%nat) then Ok V else np_vstack X V); done.
Qed.

Lemma atleast_2d_size (a : ndarray) : shape_size (shape (atleast_2d a)) = nd_size a.
Proof.
  unfold atleast_2d, nd_size.
  destruct (shape a) as [|n [|m s]] eqn:Hs; cbn [shape]; rewrite ?Hs; simpl; lia.
Qed.

(** [np.vstack] concatenates the elements, and builds a well-formed
    array from well-formed ones. *)
Lemma np_vstack_flat (a b c : ndarray) :
  np_vstack a b = Ok c →
  flat c = flat a ++ flat b ∧ (nd_wf a → nd_wf b → nd_wf c).
Proof.
  unfold np_vstack.
  pose proof (atleast_2d_size a) as Ha. pose proof (atleast_2d_size b) as Hb.
  destruct (shape (atleast_2d a)) as [|n s]; [done|].
  destruct (shape (atleast_2d b)) as [|m t]; [done|].
  case_decide as Hst; [|done]. subst t. intros [= <-]. split; [done|].
  unfold nd_wf. intros Hwa Hwb. cbn [flat]. rewrite length_app, Hwa, Hwb, <- Ha, <- Hb.
  unfold nd_size. cbn [shape]. rewrite !shape_size_cons. lia.
Qed.

Lemma np_array_pairs_wf (l : list (ndarray * ndarray)) (X : ndarray) :
  Forall (λ p, nd_wf p.1 ∧ nd_wf p.2) l → np_array_pairs l = Ok X → nd_wf X.
Proof.
  intros Hwf. destruct l as [|[a0 b0] l]; [by intros [= <-]|].
  unfold np_array_pairs. remember ((a0, b0) :: l) as l0 eqn:Hl0. clear Hl0.
  destruct (forallb _ l0) eqn:Hall; [|done]. intros [= <-].
  unfold nd_wf, nd_size. cbn [flat shape]. rewrite !shape_size_cons.
  rewrite (length_mjoin_const (2 * shape_size (shape a0))).
  - by rewrite length_fmap.
  - apply Forall_fmap, Forall_forall. intros p Hp.
    rewrite forallb_forall in Hall. specialize (Hall p (proj1 (list_elem_of_In _ _) Hp)).
    apply andb_prop in Hall as [H1%bool_decide_eq_true H2%bool_decide_eq_true].
    rewrite Forall_forall in Hwf. destruct (Hwf p Hp) as [Hw1 Hw2].
    unfold nd_wf, nd_size in Hw1, Hw2. cbn. rewrite length_app, Hw1, Hw2, H1, H2. lia.
Qed.

(** A block of samples: its pairs are well formed when the data are, and
    its labels are all the bucket of the difference. *)
Lemma build_samples_block data idx_pairs candidates difference stack (tbd : gmap Z Z)
  (V t : ndarray) :
  build_samples data idx_pairs candidates difference stack tbd = Ok (V, t) →
  (nd_wf data → nd_wf V) ∧ Forall (λ l, tbd !! difference = Some l) (flat t).
Proof.
  unfold build_samples. unfold_bind.
  destruct (nd_rows data) as [rows|] eqn:Hrows; [|done].
  destruct (collect_samples _ _ _ _ _ _) as [[video_pairs ys]|] eqn:Hcollect; [|done].
  destruct (np_array_pairs video_pairs) as [X'|] eqn:Harr; [|done].
  intros [= <- <-]. split.
  - intros Hwf.
    destruct (collect_samples_spec _ _ _ _ _ _ _ _ Hcollect) as (_ & _ & _ & Hfrom).
    assert (Hrowswf : ∀ row, row ∈ rows → nd_wf row).
    { unfold nd_rows in Hrows. destruct (shape data) as [|n s] eqn:Hs; [done|].
      injection Hrows as <-. intros row Hrow.
      by apply (nd_rows_spec data n s Hs). }
    apply (np_array_pairs_wf video_pairs); [|done].
    apply Forall_forall. intros stacks (row & ip & b & Hrow & _ & Hmk)%Hfrom.
    apply make_sample_spec in Hmk as (l1 & l2 & _ & H1 & H2 & _).
    apply nd_take_spec in H1 as (? & ? & _ & _ & Hw1 & _).
    apply nd_take_spec in H2 as (? & ? & _ & _ & Hw2 & _).
    split; [apply Hw1 | apply Hw2]; by apply Hrowswf.
  - rewrite collect_samples_eq in Hcollect. unfold_bind.
    destruct (mapM _ rows) as [outs|] eqn:Houts; [|done].
    injection Hcollect as _ <-. cbn [np_array_ints flat].
    apply Forall_fmap, Forall_forall. intros [stacks bucket] Hin.
    apply list_elem_of_join in Hin as (out & Hin & Hout).
    apply mapM_result_Forall2 in Houts.
    destruct (proj1 (list_elem_of_lookup _ _) Hout) as [r Hr].
    destruct (Forall2_lookup_r _ _ _ _ _ Houts Hr) as (row & _ & Hrow).
    apply mapM_result_Forall2 in Hrow.
    destruct (proj1 (list_elem_of_lookup _ _) Hin) as [j Hj].
    destruct (Forall2_lookup_r _ _ _ _ _ Hrow Hj) as (ip & _ & Hmk).
    by apply make_sample_spec in Hmk as (_ & _ & _ & _ & _ & Hb).
Qed.

Lemma sample_block_spec data (dd : gmap Z (list (Z * Z))) (k stack : Z)
  (tbd : gmap Z Z) (difference : Z) (V t : ndarray) :
  sample_block data dd k stack tbd difference = Ok (V, t) →
  (nd_wf data → nd_wf V) ∧ Forall (λ l, tbd !! difference = Some l) (flat t).
Proof.
  unfold sample_block. destruct (dd !! difference) as [candidates|]; [|done].
  repeat case_decide; try done. apply build_samples_block.
Qed.

(** Adding a block appends its elements to those of [X] and [y]. *)
Lemma accumulate_flat (acc block acc' : ndarray * ndarray) :
  accumulate acc block = Ok acc' →
  flat acc'.2 = flat acc.2 ++ flat block.2
  ∧ (nd_wf acc.1 → nd_wf block.1 →
     nd_wf acc'.1 ∧ flat acc'.1 = flat acc.1 ++ flat block.1).
Proof.
  unfold accumulate. unfold_bind. case_decide as Hz.
  - intros [= <-]. split; [done|]. intros Ha Hb. split; [done|].
    unfold nd_wf in Ha. rewrite Hz in Ha. apply nil_length_inv in Ha.
    cbn [fst]. by rewrite Ha.
  - destruct (np_vstack acc.1 block.1) as [X|] eqn:Hv; [|done]. intros [= <-].
    apply np_vstack_flat in Hv as [Hf Hw]. split; [done|].
    intros Ha Hb. split; [by apply Hw|done].
Qed.

(** One pass over the differences appends the blocks of the differences,
    in order. *)
Lemma differences_loop_flat data (dd : gmap Z (list (Z * Z))) (k stack : Z)
  (tbd : gmap Z Z) (differences : list Z) (acc acc' : ndarray * ndarray) :
  for_each differences (λ acc difference,
    block ← sample_block data dd k stack tbd difference; accumulate acc block) acc
  = Ok acc' →
  ∃ blocks, mapM (sample_block data dd k stack tbd) differences = Ok blocks
    ∧ flat acc'.2 = flat acc.2 ++ mjoin ((λ b, flat b.2) <$> blocks)
    ∧ (nd_wf data → nd_wf acc.1 →
       nd_wf acc'.1 ∧ flat acc'.1 = flat acc.1 ++ mjoin ((λ b, flat b.1) <$> blocks)).
Proof.
  revert acc. induction differences as [|d differences IH]; intros acc Hloop.
  - injection Hloop as <-. exists []. cbn. by rewrite !app_nil_r.
  - cbn [for_each] in Hloop.
    destruct (sample_block data dd k stack tbd d) as [[V t]|] eqn:Hsb; [|done].
    cbn [mbind result_bind] in Hloop.
    destruct (accumulate acc (V, t)) as [acc1|] eqn:Hacc; [|done].
    destruct (IH acc1 Hloop) as (blocks & Hm & Hy & HX).
    exists ((V, t) :: blocks). cbn [mapM]. rewrite Hsb, Hm. split; [done|].
    apply accumulate_flat in Hacc as [Hy1 HX1]. split.
    + rewrite Hy, Hy1. cbn. by rewrite app_assoc.
    + intros Hd Hw. apply sample_block_spec in Hsb as [HV _].
      destruct (HX1 Hw (HV Hd)) as [Hw1 Hf1]. destruct (HX Hd Hw1) as [Hw' Hf'].
      split; [done|]. rewrite Hf', Hf1. cbn. by rewrite app_assoc.
Qed.

(** Each pass appends the same elements. *)
Lemma passes_loop_flat data (dd : gmap Z (list (Z * Z))) (k stack : Z)
  (tbd : gmap Z Z) (mfd : np_num) (differences : list Z)
  (blocks : list (ndarray * ndarray)) (passes : list Z) (acc acc' : ndarray * ndarray) :
  np_range (np_succ mfd) = Ok differences →
  mapM (sample_block data dd k stack tbd) differences = Ok blocks →
  for_each passes (λ acc i,
    differences ← np_range (np_succ mfd);
    for_each differences (λ acc difference,
      block ← sample_block data dd k stack tbd difference; accumulate acc block) acc) acc
  = Ok acc' →
  flat acc'.2
  = flat acc.2 ++ mjoin (replicate (length passes) (mjoin ((λ b, flat b.2) <$> blocks)))
  ∧ (nd_wf data → nd_wf acc.1 →
     nd_wf acc'.1
     ∧ flat acc'.1
       = flat acc.1
         ++ mjoin (replicate (length passes) (mjoin ((λ b, flat b.1) <$> blocks)))).
Proof.
  intros Hrange Hblocks. rewrite Hrange. cbn [mbind result_bind]. revert acc.
  induction passes as [|i passes IH]; intros acc Hloop.
  - injection Hloop as <-. cbn. by rewrite !app_nil_r.
  - cbn [for_each] in Hloop.
    destruct (for_each differences _ acc) as [acc1|] eqn:Hpass; [|done].
    cbn [mbind result_bind] in Hloop.
    apply differences_loop_flat in Hpass as (blocks' & Hm & Hy1 & HX1).
    rewrite Hblocks in Hm. injection Hm as <-.
    destruct (IH acc1 Hloop) as [Hy HX]. split.
    + rewrite Hy, Hy1. cbn. by rewrite app_assoc.
    + intros Hd Hw. destruct (HX1 Hd Hw) as [Hw1 Hf1].
      destruct (HX Hd Hw1) as [Hw' Hf']. split; [done|].
      rewrite Hf', Hf1. cbn. by rewrite app_assoc.
Qed.

(** A loop that succeeds keeps what every successful step keeps. *)
Lemma for_each_inv {A S : Type} (P : S → Prop) (l : list A) (body : S → A → result S)
  (s s' : S) :
  (∀ s x s', P s → body s x = Ok s' → P s') →
  P s → for_each l body s = Ok s' → P s'.
Proof.
  intros Hbody. revert s. induction l as [|x l IH]; intros s Hs Hloop.
  - by injection Hloop as <-.
  - cbn [for_each] in Hloop. destruct (body s x) as [s1|] eqn:Hs1; [|done].
    apply (IH s1); [by eapply Hbody|done].
Qed.

(** The generation with [p] passes holds [p] times the elements of the
    generation with one pass. *)
Lemma generate_pairs_pure_passes data time_buckets ntf mfd passes pairs stack
  (X y X1 y1 : ndarray) :
  generate_pairs_pure data time_buckets ntf mfd passes pairs stack = Ok (X, y) →
  generate_pairs_pure data time_buckets ntf mfd 1 pairs stack = Ok (X1, y1) →
  flat y = mjoin (replicate (Z.to_nat passes) (flat y1))
  ∧ (nd_wf data → flat X = mjoin (replicate (Z.to_nat passes) (flat X1))).
Proof.
  unfold generate_pairs_pure.
  destruct (get_frame_differences_dict ntf mfd stack) as [dd|]; [|done].
  cbn [mbind result_bind]. intros Hp H1.
  change (py_range 1) with [0] in H1. cbn [for_each] in H1.
  destruct (np_range (np_succ mfd)) as [differences|] eqn:Hrange; [|done].
  cbn [mbind result_bind] in H1.
  destruct (for_each differences _ (np_empty, np_empty)) as [acc1|] eqn:Hpass; [|done].
  cbn [mbind result_bind] in H1. injection H1 as ->.
  apply differences_loop_flat in Hpass as (blocks & Hblocks & Hy1 & HX1).
  cbn [fst snd np_empty flat app] in Hy1, HX1.
  pose proof (passes_loop_flat data dd pairs stack (get_time_buckets_dict time_buckets)
                mfd differences blocks (py_range passes) (np_empty, np_empty) (X, y)
                Hrange Hblocks) as Hflat.
  rewrite Hrange in Hflat. destruct (Hflat Hp) as [Hy HX].
  cbn [fst snd np_empty flat app] in Hy, HX.
  unfold py_range in Hy, HX. rewrite length_seqZ in Hy, HX. split.
  - by rewrite Hy, Hy1.
  - intros Hd. destruct (HX Hd) as [_ ->]; [done|].
    destruct (HX1 Hd) as [_ ->]; done.
Qed.

(** Every label of a generation is the bucket of some difference. *)
Lemma generate_pairs_pure_labels data time_buckets ntf mfd passes pairs stack
  (X y : ndarray) :
  generate_pairs_pure data time_buckets ntf mfd passes pairs stack = Ok (X, y) →
  Forall (λ l, ∃ d, get_time_buckets_dict time_buckets !! d = Some l) (flat y).
Proof.
  unfold generate_pairs_pure.
  destruct (get_frame_differences_dict ntf mfd stack) as [dd|]; [|done].
  cbn [mbind result_bind]. intros Hp.
  apply (for_each_inv
           (λ acc, Forall (λ l, ∃ d, get_time_buckets_dict time_buckets !! d = Some l)
                     (flat acc.2)) _ _ _ _) in Hp; [done| |by constructor].
  intros acc i acc' Hacc Hpass.
  destruct (np_range (np_succ mfd)) as [differences|]; [|done].
  cbn [mbind result_bind] in Hpass.
  apply (for_each_inv
           (λ acc, Forall (λ l, ∃ d, get_time_buckets_dict time_buckets !! d = Some l)
                     (flat acc.2)) _ _ _ _) in Hpass; [done| |done].
  intros acc0 d acc1 Hacc0 Hstep.
  destruct (sample_block _ _ _ _ _ d) as [[V t]|] eqn:Hsb; [|done].
  cbn [mbind result_bind] in Hstep.
  apply accumulate_flat in Hstep as [-> _].
  apply sample_block_spec in Hsb as [_ Hl].
  apply Forall_app. split; [done|].
  eapply Forall_impl; [exact Hl|]. intros l Hd. by exists d.
Qed.

(** A call that finds no cache to return and succeeds returns what the
    generation gives on the loaded data. *)
Lemma get_paired_data_fresh_pure project_dir data_dir plots_dir filename time_buckets
  num_passes num_pairs stack (force : bool) (w : world) (X y : ndarray) :
  force = true
  ∨ files w !! (cache_paths project_dir data_dir filename).1 = None
  ∨ files w !! (cache_paths project_dir data_dir filename).2 = None →
  (get_paired_data project_dir data_dir plots_dir filename time_buckets num_passes
     num_pairs stack force w).1 = Ok (X, y) →
  ∃ data n max_frame_diff,
    (load_data project_dir data_dir filename w).1 = Ok data
    ∧ shape data !! 1%nat = Some n
    ∧ hstack_max time_buckets = Ok max_frame_diff
    ∧ generate_pairs_pure data time_buckets (Z.of_nat n) max_frame_diff num_passes
        num_pairs stack = Ok (X, y).
Proof.
  intros Hmiss Hcall.
  destruct (get_paired_data_Ok_inv _ _ _ _ _ _ _ _ _ _ _ Hcall)
    as (data & n & mfd & Hload & Hn & Hmax).
  exists data, n, mfd. do 3 (split; [done|]).
  rewrite (get_paired_data_eq _ _ _ _ _ _ _ _ _ _ data n mfd Hload Hn Hmax) in Hcall.
  case_bool_decide; [|done].
  destruct (cache_paths project_dir data_dir filename) as [X_path y_path].
  cbn [fst snd] in Hmiss. rewrite (fresh_is_miss force w X_path y_path Hmiss) in Hcall.
  rewrite <- (generate_pairs_pure_eq data time_buckets (Z.of_nat n) mfd num_passes
                num_pairs stack w).
  destruct (generate_pairs _ _ _ _ _ _ _ w) as [[[X' y']|e] w']; done.
Qed.

(** X16: the passes of a generation only repeat the samples. Every call
    of the sampler reseeds the generator, so each pass draws the same
    candidate positions: a call with [p] passes that finds no cache to
    return gives arrays that hold, [p] times over, the elements of the
    arrays that the call with one pass gives. *)
Theorem passes_repeat_the_samples project_dir data_dir plots_dir filename
  (time_buckets : list (list Z)) (num_passes_for_generation num_pairs_per_example : Z)
  (num_frames_in_stack : Z) (force : bool) (w : world) (data X y X1 y1 : ndarray) :
  force = true
  ∨ files w !! (cache_paths project_dir data_dir filename).1 = None
  ∨ files w !! (cache_paths project_dir data_dir filename).2 = None →
  (load_data project_dir data_dir filename w).1 = Ok data →
  nd_wf data →
  (get_paired_data project_dir data_dir plots_dir filename time_buckets
     num_passes_for_generation num_pairs_per_example num_frames_in_stack force w).1
  = Ok (X, y) →
  (get_paired_data project_dir data_dir plots_dir filename time_buckets
     1 num_pairs_per_example num_frames_in_stack force w).1
  = Ok (X1, y1) →
  flat X = mjoin (replicate (Z.to_nat num_passes_for_generation) (flat X1))
  ∧ flat y = mjoin (replicate (Z.to_nat num_passes_for_generation) (flat y1)).
Proof.
  intros Hmiss Hload Hwf Hp H1.
  apply get_paired_data_fresh_pure in Hp as (data' & n & mfd & Hload' & Hn & Hmax & Hp);
    [|done].
  apply get_paired_data_fresh_pure in H1 as (data1 & n1 & mfd1 & Hload1 & Hn1 & Hmax1 & H1);
    [|done].
  assert (data' = data) as -> by congruence.
  assert (data1 = data) as -> by congruence.
  assert (n1 = n) as -> by congruence.
  assert (mfd1 = mfd) as -> by congruence.
  destruct (generate_pairs_pure_passes _ _ _ _ _ _ _ _ _ _ _ Hp H1) as [Hy HX].
  split; [by apply HX|done].
Qed.

(** X17: the labels of a generation are positions of buckets. Every
    element of the [y] that a call returns when it finds no cache to
    return is the position, in [time_buckets], of a bucket that holds a
    frame difference; so it lies in [0, len(time_buckets)). *)
Theorem labels_are_bucket_positions project_dir data_dir plots_dir filename
  (time_buckets : list (list Z)) (num_passes_for_generation num_pairs_per_example : Z)
  (num_frames_in_stack : Z) (force : bool) (w : world) (X y : ndarray) :
  force = true
  ∨ files w !! (cache_paths project_dir data_dir filename).1 = None
  ∨ files w !! (cache_paths project_dir data_dir filename).2 = None →
  (get_paired_data project_dir data_dir plots_dir filename time_buckets
     num_passes_for_generation num_pairs_per_example num_frames_in_stack force w).1
  = Ok (X, y) →
  ∀ label, label ∈ flat y →
    0 ≤ label < Z.of_nat (length time_buckets)
    ∧ ∃ bucket difference,
        time_buckets !! Z.to_nat label = Some bucket ∧ difference ∈ bucket.
Proof.
  intros Hmiss Hp label Hlabel.
  apply get_paired_data_fresh_pure in Hp as (data & n & mfd & _ & _ & _ & Hp); [|done].
  apply generate_pairs_pure_labels in Hp.
  rewrite Forall_forall in Hp. destruct (Hp label Hlabel) as [d Hd].
  rewrite get_time_buckets_dict_lookup in Hd.
  destruct (last_bucket time_buckets d) as [i|] eqn:Hi; [|done].
  injection Hd as <-. apply last_bucket_Some in Hi as [(bucket & Hb & Hin) _].
  rewrite Nat2Z.id. split; [|by exists bucket, d].
  apply lookup_lt_Some in Hb. lia.
Qed.

End PassProperties.



Lemma empty_bucket_raises_TypeError_witness :
  get_paired_data "p" "d" "plots" "f.npy" [[0]; []; [1]] 1 1 1 false example_world
  = (Raise TypeError, example_world).
Proof.
  apply (empty_bucket_raises_TypeError "p" "d" "plots" "f.npy" [[0]; []; [1]] 1 1 1
           false example_world example_data 3 (NpFloat 1)).
  - vm_compute. reflexivity.
  - reflexivity.
  - right; left.
  - reflexivity.
  - simpl. lia.
  - right; left. reflexivity.
Defined.

Lemma no_pass_returns_empty_arrays_witness :
  get_paired_data "p" "d" "plots" "f.npy" [[0]; [1]] 0 1 1 false example_world
  = (Ok (np_empty, np_empty),
     World (<[(cache_paths "p" "d" "f.npy").2 := np_empty]>
              (<[(cache_paths "p" "d" "f.npy").1 := np_empty]> (files example_world)))
           (rng example_world)).
Proof.
  apply (no_pass_returns_empty_arrays "p" "d" "plots" "f.npy" [[0]; [1]] 0 1 1 false
           example_world example_data 3 1).
  - vm_compute. reflexivity.
  - reflexivity.
  - reflexivity.
  - lia.
  - right; left. reflexivity.
  - lia.
Defined.

Lemma bucket_gap_raises_KeyError_witness :
  (get_paired_data "p" "d" "plots" "f.npy" [[0]; [2]] 1 1 1 false example_world).1
  = Raise KeyError.
Proof.
  apply (bucket_gap_raises_KeyError "p" "d" "plots" "f.npy" [[0]; [2]] 1 1 1 false
           example_world example_data 2 3 [1; 2]%nat 2 1);
    try reflexivity; try lia.
  - intros bucket [->|[->|[]%elem_of_nil]%elem_of_cons]%elem_of_cons;
      intros [?|[]%elem_of_nil]%elem_of_cons; lia.
  - right; left. reflexivity.
Defined.

Lemma zero_pairs_returns_empty_arrays_witness :
  get_samples_at_difference example_data 1 example_differences_dict 0 1
    example_time_buckets_dict example_world
  = (Ok (np_empty, np_empty),
     World (files example_world)
       (np_choice (length [(0, 1); (1, 2)]) 0 (np_seed 1337)).2).
Proof.
  apply (zero_pairs_returns_empty_arrays example_data 1 example_differences_dict
           [(0, 1); (1, 2)] 1 example_time_buckets_dict example_world);
    [discriminate | reflexivity | discriminate].
Defined.

(** A world whose data file holds videos of 20 frames, as Moving MNIST
    does. *)
Lemma main_asserts_iff_short_videos_witness :
  let raw := NdArray [20; 1; 1; 1]%nat (replicate 20 0) in
  let w := @World lcg_random {[ "p/data/mnist_test_seq.npy"%string := raw ]} 0 in
  (main_get_paired_data "p" "mnist_test_seq.npy" w).1 = Raise AssertionError
  ↔ (20 < 21)%nat.
Proof.
  intros raw w.
  apply (main_asserts_iff_short_videos "p" "mnist_test_seq.npy" w
           (NdArray [1; 20; 1; 1]%nat (replicate 20 0)) 20).
  - vm_compute. reflexivity.
  - reflexivity.
Defined.

Lemma load_data_swaps_axes_witness :
  ∃ data,
    load_data "p" "d" "f.npy" example_world = (Ok data, example_world)
    ∧ shape data = [2; 3; 1; 2]%nat
    ∧ nd_wf data
    ∧ ∀ i j, (i < 3)%nat → (j < 2)%nat →
        nd_row (nd_row data j) i = nd_row (nd_row example_raw i) j.
Proof.
  apply (load_data_swaps_axes "p" "d" "f.npy" example_world example_raw 3 2 [1; 2]%nat);
    reflexivity.
Defined.

Lemma dataset_getitem_in_range_witness :
  let dataset := {| dataset_X := example_generated_X; dataset_y := example_generated_y |} in
  dataset_len dataset = Ok (Z.of_nat 4)
  ∧ dataset_getitem dataset (-1)
    = if decide (- Z.of_nat 4 ≤ -1 < Z.of_nat 4)
      then let k := Z.to_nat ((-1) `mod` Z.of_nat 4) in
           Ok (nd_row (nd_row example_generated_X k) 0,
               nd_row (nd_row example_generated_X k) 1, nd_row example_generated_y k)
      else Raise IndexError.
Proof.
  apply (dataset_getitem_in_range example_generated_X example_generated_y 4
           [1; 1; 2]%nat (-1)); reflexivity.
Defined.

Lemma passes_repeat_the_samples_witness :
  let X := NdArray [8; 2; 1; 1; 2]%nat
             [9; 10; 9; 10; 11; 12; 11; 12; 5; 6; 9; 10; 7; 8; 11; 12;
              9; 10; 9; 10; 11; 12; 11; 12; 5; 6; 9; 10; 7; 8; 11; 12] in
  let y := NdArray [8]%nat [0; 0; 1; 1; 0; 0; 1; 1] in
  (get_paired_data "p" "d" "plots" "f.npy" [[0]; [1]] 2 1 1 true example_world).1
  = Ok (X, y)
  ∧ flat X = mjoin (replicate (Z.to_nat 2) (flat example_generated_X))
  ∧ flat y = mjoin (replicate (Z.to_nat 2) (flat example_generated_y)).
Proof.
  cbv zeta. split; [vm_compute; reflexivity|].
  apply (passes_repeat_the_samples "p" "d" "plots" "f.npy" [[0]; [1]] 2 1 1 true
           example_world example_data
           (NdArray [8; 2; 1; 1; 2]%nat
              [9; 10; 9; 10; 11; 12; 11; 12; 5; 6; 9; 10; 7; 8; 11; 12;
               9; 10; 9; 10; 11; 12; 11; 12; 5; 6; 9; 10; 7; 8; 11; 12])
           (NdArray [8]%nat [0; 0; 1; 1; 0; 0; 1; 1])
           example_generated_X example_generated_y).
  - left. reflexivity.
  - vm_compute. reflexivity.
  - reflexivity.
  - vm_compute. reflexivity.
  - vm_compute. reflexivity.
Defined.

Lemma labels_are_bucket_positions_witness :
  0 ≤ 1 < Z.of_nat (length [[0]; [1]])
  ∧ ∃ bucket difference, [[0]; [1]] !! Z.to_nat 1 = Some bucket ∧ difference ∈ bucket.
Proof.
  apply (labels_are_bucket_positions "p" "d" "plots" "f.npy" [[0]; [1]] 1 1 1 true
           example_world example_generated_X example_generated_y).
  - left. reflexivity.
  - vm_compute. reflexivity.
  - apply (list_elem_of_lookup_2 _ 2%nat). reflexivity.
Defined.
